(** * db_mcp: departure resolution and normalisation pipeline

    A shallow embedding of the Python package [db_mcp] (domain services,
    time utilities, TTL cache, bahn.de gateway, departure service and the
    tool-facing error boundary) together with the properties its
    specification states about it.

    Conventions of the embedding:
    - a Python [str] is a Rocq [string]; every character stands for one
      code point below 256;
    - a function that can raise returns a [result]: [Ok v] or [Raise e];
    - a datetime is its wall-clock reading, counted in microseconds from
      0001-01-01T00:00:00, together with its [tzinfo]; the calendar is
      unbounded (CPython's year range 1..9999 is not modelled);
    - [float] values are exact rationals (binary64 rounding is not modelled);
    - builtins whose behaviour is fixed by the interpreter, its Unicode
      tables or the tz database are the fields of the class [PyRuntime]. *)

From Stdlib Require Import ZArith QArith Lqa Ascii String.
From stdpp Require Import gmap strings list sorting pretty.

Close Scope Q_scope.
Local Open Scope string_scope.
Local Open Scope Z_scope.

(* ===================================================================== *)
(** * Exceptions and fallible computations *)
(* ===================================================================== *)

(** [domain/exceptions.py] and the interpreter's exception classes the
    code distinguishes.  [ValueError] stands for the class and its
    subclasses (json.JSONDecodeError among them); [OtherError cls msg] is an
    exception of any other class [cls]. *)
Inductive exn : Type :=
  | StationNotFoundError (msg : string)
  | ApiError (status_code : Z) (msg : string)
  | ValidationError (msg : string)
  | TimeoutException (msg : string)
  | ValueError (msg : string)
  | OtherError (cls : string) (msg : string).

(** [str(exc)] *)
Definition exn_str (e : exn) : string :=
  match e with
  | StationNotFoundError m | ApiError _ m | ValidationError m
  | TimeoutException m | ValueError m | OtherError _ m => m
  end.

(** [ApiError.__init__(status_code, message="")]:
    [super().__init__(message or f"Upstream API error ({status_code})")] *)
Definition new_ApiError (status_code : Z) (message : string) : exn :=
  ApiError status_code
    (if decide (message = "") then
       "Upstream API error (" ++ pretty status_code ++ ")"
     else message).

Inductive result (A : Type) : Type :=
  | Ok (a : A)
  | Raise (e : exn).
Arguments Ok {A} a.
Arguments Raise {A} e.

Global Instance result_ret : MRet result := @Ok.
Global Instance result_bind : MBind result := λ A B f m,
  match m with Ok a => f a | Raise e => Raise e end.
Global Instance result_fmap : FMap result := λ A B f m,
  match m with Ok a => Ok (f a) | Raise e => Raise e end.

Definition is_Ok {A} (r : result A) : bool :=
  match r with Ok _ => true | Raise _ => false end.

(* ===================================================================== *)
(** * Values exchanged with the upstream API *)
(* ===================================================================== *)

(** What [response.json()] yields.  [JNull] is Python's [None]. *)
#[warnings="-register-all"]
Inductive json : Type :=
  | JNull
  | JBool (b : bool)
  | JInt (z : Z)
  | JFloat (q : Q)
  | JStr (s : string)
  | JList (l : list json)
  | JDict (d : list (string * json)).

(* ===================================================================== *)
(** * Builtins on strings and lists *)
(* ===================================================================== *)

Fixpoint str_prefix (p s : string) : bool :=
  match p, s with
  | EmptyString, _ => true
  | String a p', String b s' => if decide (a = b) then str_prefix p' s' else false
  | String _ _, EmptyString => false
  end.

(** [sub in s] for two strings *)
Fixpoint str_in (sub s : string) : bool :=
  str_prefix sub s ||
  match s with
  | EmptyString => false
  | String _ s' => str_in sub s'
  end.

(** [c in s] for a single character *)
Fixpoint chr_in (c : ascii) (s : string) : bool :=
  match s with
  | EmptyString => false
  | String a s' => if decide (a = c) then true else chr_in c s'
  end.

(** [s.count(c)] for a single character *)
Fixpoint str_count (c : ascii) (s : string) : Z :=
  match s with
  | EmptyString => 0
  | String a s' => (if decide (a = c) then 1 else 0) + str_count c s'
  end.

(** [chr(i).isspace()] for the code points below 256:
    9..13, 28..32, 133 and 160. *)
Definition isspace (c : ascii) : bool :=
  let n := N_of_ascii c in
  ((9 <=? n) && (n <=? 13) || (28 <=? n) && (n <=? 32)
   || (n =? 133) || (n =? 160))%N.

Fixpoint lstrip (s : string) : string :=
  match s with
  | String a s' => if isspace a then lstrip s' else s
  | EmptyString => EmptyString
  end.

(** [s.strip()] *)
Definition strip (s : string) : string :=
  String.rev (lstrip (String.rev (lstrip s))).

(** [sep.join(l)] *)
Fixpoint join (sep : string) (l : list string) : string :=
  match l with
  | [] => ""
  | [x] => x
  | x :: l' => x ++ sep ++ join sep l'
  end.

(** [sorted(l)] on strings: ascending by code points. *)
Definition sorted (l : list string) : list string := merge_sort String.le l.

(** [l[:n]]: a negative stop counts from the end of the list. *)
Definition slice_to {A} (l : list A) (n : Z) : list A :=
  if 0 <=? n then take (Z.to_nat n) l
  else take (length l - Z.to_nat (- n))%nat l.

(** [l[1:]] *)
Definition slice_from1 {A} (l : list A) : list A := drop 1 l.

(** [int(s)] for a string: surrounding white space, an optional sign,
    then decimal digits, single underscores allowed between digits. *)
Definition digit_of (c : ascii) : option Z :=
  let n := N_of_ascii c in
  if ((48 <=? n) && (n <=? 57))%N then Some (Z.of_N n - 48) else None.

Fixpoint int_digits (acc : Z) (after_digit : bool) (s : string) : option Z :=
  match s with
  | EmptyString => if after_digit then Some acc else None
  | String c s' =>
      match digit_of c with
      | Some d => int_digits (10 * acc + d) true s'
      | None =>
          if bool_decide (c = "_"%char) && after_digit
          then int_digits acc false s'
          else None
      end
  end.

Definition int_of_str (s : string) : option Z :=
  match strip s with
  | String c s' =>
      if decide (c = "-"%char) then Z.opp <$> int_digits 0 false s'
      else if decide (c = "+"%char) then int_digits 0 false s'
      else int_digits 0 false (String c s')
  | EmptyString => None
  end.

(** [re.search(tok + r"(-?\d+)", s)] for a literal [tok]: group 1 of the
    leftmost match, [None] when there is none.  Below code point 256 the
    class [\d] is the ten digits. *)
Definition is_digit (c : ascii) : bool :=
  match digit_of c with Some _ => true | None => false end.

(** The longest run of digits [s] starts with. *)
Fixpoint digit_run (s : string) : string :=
  match s with
  | String c s' => if is_digit c then String c (digit_run s') else ""
  | EmptyString => ""
  end.

(** [-?\d+] matched at the start of [s]. *)
Definition signed_digits (s : string) : option string :=
  let '(sign, rest) :=
    match s with
    | String c s' => if decide (c = "-"%char) then ("-", s') else ("", s)
    | EmptyString => ("", s)
    end in
  let digits := digit_run rest in
  if decide (digits = "") then None else Some (sign ++ digits).

(** [s] without its prefix [p]; [None] when [s] does not start with [p]. *)
Fixpoint drop_prefix (p s : string) : option string :=
  match p, s with
  | EmptyString, _ => Some s
  | String a p', String b s' => if decide (a = b) then drop_prefix p' s' else None
  | String _ _, EmptyString => None
  end.

Fixpoint re_search_number (tok s : string) : option string :=
  match drop_prefix tok s ≫= signed_digits with
  | Some group => Some group
  | None =>
      match s with
      | String _ s' => re_search_number tok s'
      | EmptyString => None
      end
  end.

(* ===================================================================== *)
(** * datetime *)
(* ===================================================================== *)

Definition US_PER_SECOND : Z := 1000000.
Definition US_PER_MINUTE : Z := 60 * US_PER_SECOND.
Definition US_PER_HOUR : Z := 60 * US_PER_MINUTE.
Definition US_PER_DAY : Z := 24 * US_PER_HOUR.

(** The [tzinfo] objects the program meets: the module constant
    [BERLIN_TZ = ZoneInfo("Europe/Berlin")] and the fixed offsets
    [timezone(timedelta(...))] built by [fromisoformat] (offset in
    microseconds east of UTC). *)
Inductive tzinfo : Type :=
  | BERLIN_TZ
  | timezone (utcoffset : Z).

Record datetime : Type := mk_datetime {
  wall : Z;
  tz : option tzinfo
}.

(** A [timedelta] is a number of microseconds. *)
Definition timedelta : Type := Z.

(** The interpreter around the program. *)
Class PyRuntime : Type := {
  (** [str.lower], [str.upper], [repr] of a string *)
  str_lower : string → string;
  str_upper : string → string;
  str_repr : string → string;
  (** [float(s)] of a string; [None] is ValueError *)
  float_of_str : string → option Q;
  (** [datetime.fromisoformat]; [None] is ValueError *)
  fromisoformat : string → option datetime;
  (** [datetime.strptime(s, fmt)]: a naive wall clock; [None] is ValueError *)
  strptime : string → string → option Z;
  (** [dt.strftime(fmt)], [dt.isoformat()] *)
  strftime : datetime → string → string;
  isoformat : datetime → string;
  (** tz database: UTC offset of Europe/Berlin at a Berlin wall clock, and
      the Berlin wall clock of a UTC instant *)
  berlin_utcoffset : Z → Z;
  berlin_fromutc : Z → Z;
  (** UTC offset of the system's local zone at a local wall clock *)
  local_utcoffset : Z → Z;
  (** lower-casing the empty string gives the empty string *)
  str_lower_empty : str_lower "" = ""
}.

Section Datetime.
Context `{PyRuntime}.

(** [dt.utcoffset()] of an aware datetime *)
Definition tz_utcoffset (w : Z) (z : tzinfo) : Z :=
  match z with
  | BERLIN_TZ => berlin_utcoffset w
  | timezone o => o
  end.

Definition naive_aware_error (what : string) : exn :=
  OtherError "TypeError"
    ("can't " ++ what ++ " offset-naive and offset-aware datetimes").

(** [a - b]: two naive datetimes, or two aware ones carrying the same
    [tzinfo] object, are subtracted on their wall clocks; two aware ones
    with different [tzinfo] on their UTC instants. *)
Definition dt_sub (a b : datetime) : result timedelta :=
  match tz a, tz b with
  | None, None => Ok (wall a - wall b)
  | Some BERLIN_TZ, Some BERLIN_TZ => Ok (wall a - wall b)
  | Some za, Some zb =>
      Ok ((wall a - tz_utcoffset (wall a) za) - (wall b - tz_utcoffset (wall b) zb))
  | _, _ => Raise (naive_aware_error "subtract")
  end.

(** [a <= b], by the same rule. *)
Definition dt_le (a b : datetime) : result bool :=
  match tz a, tz b with
  | None, None => Ok (bool_decide (wall a ≤ wall b))
  | Some BERLIN_TZ, Some BERLIN_TZ => Ok (bool_decide (wall a ≤ wall b))
  | Some za, Some zb =>
      Ok (bool_decide (wall a - tz_utcoffset (wall a) za
                       ≤ wall b - tz_utcoffset (wall b) zb))
  | _, _ => Raise (naive_aware_error "compare")
  end.

(** [dt.replace(tzinfo=BERLIN_TZ)] *)
Definition replace_tzinfo_berlin (dt : datetime) : datetime :=
  {| wall := wall dt; tz := Some BERLIN_TZ |}.

(** The UTC instant [astimezone] starts from: a naive datetime is
    presumed to be in the system's local zone. *)
Definition utc_instant (dt : datetime) : Z :=
  match tz dt with
  | None => wall dt - local_utcoffset (wall dt)
  | Some z => wall dt - tz_utcoffset (wall dt) z
  end.

(** [dt.astimezone(BERLIN_TZ)] *)
Definition astimezone_berlin (dt : datetime) : datetime :=
  match tz dt with
  | Some BERLIN_TZ => dt
  | _ => {| wall := berlin_fromutc (utc_instant dt); tz := Some BERLIN_TZ |}
  end.
End Datetime.

(* ===================================================================== *)
(** * domain/services.py *)
(* ===================================================================== *)

(** A raw entry of [meldungen]; a field is [None] when the key is absent. *)
Record raw_message : Type := mk_raw_message {
  m_type : option string;
  m_text : option string
}.

Section DomainServices.
Context `{PyRuntime}.

(** [int(td.total_seconds() / 60)]: the quotient truncated toward zero.
    The quotient is taken exactly; Python takes it in binary64, which
    gives the same whole number for every difference the program can
    meet in practice (below a century). *)
Definition whole_minutes (td : timedelta) : Z := Z.quot td US_PER_MINUTE.

Definition delay_minutes (sched : datetime) (rt : option datetime) : result Z :=
  match rt with
  | None => Ok 0
  | Some r =>
      delta ← whole_minutes <$> dt_sub r sched;
      Ok (Z.max 0 delta)
  end.

Definition is_cancelled (messages : list raw_message) : bool :=
  existsb (λ m, bool_decide (m_type m = Some "HALT_AUSFALL")) messages.

Definition effective_time (sched : datetime) (rt : option datetime) : datetime :=
  match rt with Some r => r | None => sched end.
End DomainServices.

(* ===================================================================== *)
(** * infrastructure/time_utils.py *)
(* ===================================================================== *)

Section TimeUtils.
Context `{PyRuntime}.

(** [now_berlin()], given the UTC instant the clock shows. *)
Definition now_berlin (utc_now : Z) : datetime :=
  {| wall := berlin_fromutc utc_now; tz := Some BERLIN_TZ |}.

(** The test [ "+" in s or (s.count("-") > 2) ]. *)
Definition has_offset_marker (s : string) : bool :=
  chr_in "+" s || bool_decide (2 < str_count "-" s).

Definition parse_bahn_datetime (s : string) : result datetime :=
  if bool_decide (s = "") || bool_decide (strip s = "") then
    Raise (ValueError "Empty datetime string")
  else
    let s := strip s in
    (* first attempt: only under the offset test; a ValueError is passed over *)
    let with_offset :=
      if has_offset_marker s then astimezone_berlin <$> fromisoformat s
      else None in
    match with_offset with
    | Some dt => Ok dt
    | None =>
        match fromisoformat s with
        | Some dt_naive => Ok (replace_tzinfo_berlin dt_naive)
        | None => Raise (ValueError ("Cannot parse datetime string: " ++ str_repr s))
        end
    end.

Definition format_datum (dt : datetime) : string := strftime dt "%Y-%m-%d".
Definition format_zeit (dt : datetime) : string := strftime dt "%H:%M:%S".
End TimeUtils.

(* ===================================================================== *)
(** * infrastructure/cache.py *)
(* ===================================================================== *)

(** The reading of [time.monotonic()] is an argument of each operation
    that takes one. *)
Module TTLCache.
Record t : Type := mk {
  _default_ttl : Z;
  _store : gmap string (json * Q)
}.

(** [TTLCache(default_ttl=90)] *)
Definition new (default_ttl : Z) : t :=
  {| _default_ttl := default_ttl; _store := ∅ |}.

(** [now > expires_at] *)
Definition expired (now expires_at : Q) : bool := negb (Qle_bool now expires_at).

(** [get(key)]: the value ([JNull] for None) and the cache afterwards. *)
Definition get (c : t) (key : string) (now : Q) : json * t :=
  match _store c !! key with
  | None => (JNull, c)
  | Some (data, expires_at) =>
      if expired now expires_at then
        (JNull, {| _default_ttl := _default_ttl c; _store := delete key (_store c) |})
      else (data, c)
  end.

Definition set (c : t) (key : string) (value : json) (ttl : option Z) (now : Q) : t :=
  let effective_ttl := match ttl with Some x => x | None => _default_ttl c end in
  {| _default_ttl := _default_ttl c;
     _store := <[key := (value, (now + inject_Z effective_ttl)%Q)]> (_store c) |}.

Definition invalidate (c : t) (key : string) : t :=
  {| _default_ttl := _default_ttl c; _store := delete key (_store c) |}.

Definition clear (c : t) : t :=
  {| _default_ttl := _default_ttl c; _store := ∅ |}.
(** [_evict_expired()] *)
Definition _evict_expired (c : t) (now : Q) : t :=
  {| _default_ttl := _default_ttl c;
     _store := filter (λ kv, expired now kv.2.2 = false) (_store c) |}.
End TTLCache.

(* ===================================================================== *)
(** * infrastructure/headers.py *)
(* ===================================================================== *)

(** The module global [_ua_index] is passed in and handed back; the two
    values of [uuid4()] are arguments.  The returned dict is the list of
    its items in insertion order. *)
Module Headers.
Definition _USER_AGENTS : list string :=
  ["Mozilla/5.0 (Windows NT 10.0; Win64; x64) AppleWebKit/537.36 (KHTML, like Gecko) Chrome/131.0.0.0 Safari/537.36";
   "Mozilla/5.0 (Macintosh; Intel Mac OS X 10_15_7) AppleWebKit/537.36 (KHTML, like Gecko) Chrome/131.0.0.0 Safari/537.36";
   "Mozilla/5.0 (X11; Linux x86_64) AppleWebKit/537.36 (KHTML, like Gecko) Chrome/131.0.0.0 Safari/537.36"].

(** The double quote, as a string. *)
Definition dquote : string := String "034"%char EmptyString.

Definition make_headers (_ua_index : Z) (uuid_a uuid_b : string)
  : list (string * string) * Z :=
  let ua :=
    default "" (_USER_AGENTS !! Z.to_nat (_ua_index `mod` Z.of_nat (length _USER_AGENTS))) in
  ([("Accept", "application/json, text/plain, */*");
    ("Accept-Language", "de-DE,de;q=0.9,en-US;q=0.8,en;q=0.7");
    ("Cache-Control", "no-cache");
    ("Pragma", "no-cache");
    ("Origin", "https://www.bahn.de");
    ("Referer", "https://www.bahn.de/buchung/fahrplan/suche");
    ("User-Agent", ua);
    ("Sec-Fetch-Dest", "empty");
    ("Sec-Fetch-Mode", "cors");
    ("Sec-Fetch-Site", "same-origin");
    ("sec-ch-ua",
     dquote ++ "Chromium" ++ dquote ++ ";v=" ++ dquote ++ "131" ++ dquote ++ ", "
     ++ dquote ++ "Not?A_Brand" ++ dquote ++ ";v=" ++ dquote ++ "24" ++ dquote ++ ", "
     ++ dquote ++ "Google Chrome" ++ dquote ++ ";v=" ++ dquote ++ "131" ++ dquote);
    ("sec-ch-ua-mobile", "?0");
    ("x-correlation-id", uuid_a ++ "_" ++ uuid_b)],
   _ua_index + 1).
End Headers.

(* ===================================================================== *)
(** * domain/value_objects.py *)
(* ===================================================================== *)

Inductive TransportMode : Type :=
  | ICE | EC_IC | IR | REGIONAL | SBAHN | BUS | SCHIFF | UBAHN | TRAM
  | ANRUFPFLICHTIG.

(** [m.value] *)
Definition mode_value (m : TransportMode) : string :=
  match m with
  | ICE => "ICE" | EC_IC => "EC_IC" | IR => "IR" | REGIONAL => "REGIONAL"
  | SBAHN => "SBAHN" | BUS => "BUS" | SCHIFF => "SCHIFF" | UBAHN => "UBAHN"
  | TRAM => "TRAM" | ANRUFPFLICHTIG => "ANRUFPFLICHTIG"
  end.

Definition all_modes : list TransportMode :=
  [ICE; EC_IC; IR; REGIONAL; SBAHN; BUS; SCHIFF; UBAHN; TRAM; ANRUFPFLICHTIG].

(** [TransportMode(s)]; [None] when [s] is no member's value. *)
Definition mode_of_value (s : string) : option TransportMode :=
  find (λ m, bool_decide (mode_value m = s)) all_modes.

(* ===================================================================== *)
(** * infrastructure/bahn_client.py *)
(* ===================================================================== *)

Definition BASE_URL : string := "https://www.bahn.de/web/api".
Definition TTL_STATIONS : Z := 300.
Definition TTL_DEPARTURES : Z := 90.
Definition TTL_JOURNEY : Z := 30.

(** A query-parameter value and its [str()]. *)
Inductive param : Type :=
  | PStr (s : string)
  | PInt (z : Z).

Definition param_str (v : param) : string :=
  match v with PStr s => s | PInt z => pretty z end.

(** Order of [sorted(params.items())]: the keys of a dict are distinct, so
    the pairs are ordered by key. *)
Definition item_le : relation (string * param) := λ a b, String.le a.1 b.1.
Global Instance item_le_dec : RelDecision item_le.
Proof. intros a b. unfold item_le. apply _. Defined.

(** ["&".join(f"{k}={v}" for k, v in sorted(params.items()))] *)
Definition query_of (params : list (string * param)) : string :=
  join "&" ((λ kv, kv.1 ++ "=" ++ param_str kv.2) <$> merge_sort item_le params).

(** An [httpx.Response]: [json_body] is what [response.json()] does. *)
Record Response : Type := mk_Response {
  resp_status_code : Z;
  resp_url : string;
  resp_json : result json
}.

Module BahnClient.

Definition _raise_for_status (response : Response) : result unit :=
  if bool_decide (resp_status_code response = 404) then
    Raise (new_ApiError 404 ("Resource not found (404): " ++ resp_url response))
  else if bool_decide (400 ≤ resp_status_code response) then
    Raise (new_ApiError (resp_status_code response) "")
  else Ok ().

(** What follows a cache miss: the request, the status check, the body.
    (The headers [make_headers()] builds for the request have no part in
    what the call returns or caches.) *)
Definition fetch (http : result Response) : result json :=
  response ← http;
  _ ← _raise_for_status response;
  resp_json response.

(** [_get(url, params, ttl)].  [http] is the outcome of
    [self._http.get(...)] should the request be made; [t_get] and [t_set]
    are the clock readings of the cache look-up and of the cache write. *)
Definition _get (cache : TTLCache.t) (url : string)
    (params : list (string * param)) (ttl : option Z)
    (t_get t_set : Q) (http : result Response) : result json * TTLCache.t :=
  let cache_key := url ++ "?" ++ query_of params in
  let '(cached, cache) := TTLCache.get cache cache_key t_get in
  match cached with
  | JNull =>
      match fetch http with
      | Ok data => (Ok data, TTLCache.set cache cache_key data ttl t_set)
      | Raise e => (Raise e, cache)
      end
  | _ => (Ok cached, cache)
  end.

Definition departures_url : string := BASE_URL ++ "/reiseloesung/abfahrten".

Definition departures_base_params (eva : Z) (hafas_id datum zeit : string)
  : list (string * param) :=
  [("datum", PStr datum); ("zeit", PStr zeit); ("ortExtId", PInt eva);
   ("ortId", PStr hafas_id); ("mitVias", PStr "true"); ("maxVias", PInt 5)].

(** The local [cache_key] of [get_departures]. *)
Definition departures_cache_key (eva : Z) (hafas_id datum zeit : string)
    (modes : list string) : string :=
  let modes_key :=
    match modes with [] => "" | _ => join "," (sorted modes) end in
  departures_url ++ "?"
    ++ query_of (departures_base_params eva hafas_id datum zeit)
    ++ "&modes=" ++ modes_key.

Definition get_departures (cache : TTLCache.t) (eva : Z)
    (hafas_id datum zeit : string) (modes : list string)
    (t_get t_set : Q) (http : result Response) : result json * TTLCache.t :=
  let cache_key := departures_cache_key eva hafas_id datum zeit modes in
  let '(cached, cache) := TTLCache.get cache cache_key t_get in
  match cached with
  | JNull =>
      match fetch http with
      | Ok data =>
          (Ok data, TTLCache.set cache cache_key data (Some TTL_DEPARTURES) t_set)
      | Raise e => (Raise e, cache)
      end
  | _ => (Ok cached, cache)
  end.

Definition get_journey (cache : TTLCache.t) (journey_id : string)
    (t_get t_set : Q) (http : result Response) : result json * TTLCache.t :=
  _get cache (BASE_URL ++ "/reiseloesung/fahrt")
    [("journeyId", PStr journey_id); ("poly", PStr "false")]
    (Some TTL_JOURNEY) t_get t_set http.
(** [d.get(key, dflt)] on a JSON object (its keys are distinct). *)
Fixpoint dict_get (key : string) (d : list (string * json)) (dflt : json) : json :=
  match d with
  | [] => dflt
  | (k, v) :: d' => if decide (k = key) then v else dict_get key d' dflt
  end.

(** [type(v).__name__] *)
Definition type_name (v : json) : string :=
  match v with
  | JNull => "NoneType" | JBool _ => "bool" | JInt _ => "int"
  | JFloat _ => "float" | JStr _ => "str" | JList _ => "list"
  | JDict _ => "dict"
  end.

(** The lines of [search_stations] after the request: a list is returned
    as it is, anything else is asked for its key "items", then "orte". *)
Definition stations_of (data : json) : result json :=
  match data with
  | JList _ => Ok data
  | JDict d => Ok (dict_get "items" d (dict_get "orte" d (JList [])))
  | _ =>
      Raise (OtherError "AttributeError"
               ("'" ++ type_name data ++ "' object has no attribute 'get'"))
  end.

Definition search_stations (cache : TTLCache.t) (query : string) (limit : Z)
    (t_get t_set : Q) (http : result Response) : result json * TTLCache.t :=
  let '(data, cache) :=
    _get cache (BASE_URL ++ "/reiseloesung/orte")
      [("suchbegriff", PStr query); ("typ", PStr "ALL"); ("limit", PInt limit)]
      (Some TTL_STATIONS) t_get t_set http in
  (data ≫= stations_of, cache).
End BahnClient.

(* ===================================================================== *)
(** * domain/entities.py *)
(* ===================================================================== *)

Record Message : Type := mk_Message {
  msg_type : string;
  msg_text : string
}.

Module Location.
Record t : Type := mk {
  eva : Z;
  hafas_id : string;
  name : string;
  lat : Q;
  lon : Q;
  location_type : string;
  transport_modes : list string
}.
End Location.

Module Departure.
Record t : Type := mk {
  journey_id : string;
  train_name : string;
  train_type : string;
  destination : string;
  via_stations : list string;
  platform : string;
  rt_platform : string;
  scheduled_departure : datetime;
  rt_departure : option datetime;
  effective_departure : datetime;
  delay_minutes : Z;
  is_cancelled : bool;
  messages : list Message
}.
End Departure.

(* ===================================================================== *)
(** * Raw upstream payloads *)
(* ===================================================================== *)

(** The dicts of the upstream JSON, read at the keys the service reads and
    at the types its annotations give them.  A field is [None] when the key
    is absent.  The fields the service passes through [int()] or [float()]
    keep their JSON value. *)
Record raw_location : Type := mk_raw_location {
  rl_evaNumber : option json;
  rl_extId : option json;
  rl_id : option string;
  rl_name : option string;
  rl_lat : option json;
  rl_lon : option json;
  rl_type : option string;
  rl_products : option (list string)
}.

Record raw_verkehrmittel : Type := mk_raw_verkehrmittel {
  vk_langText : option string;
  vk_mittelText : option string;
  vk_kurzText : option string
}.

Record raw_entry : Type := mk_raw_entry {
  re_journeyId : option string;
  re_terminus : option string;
  re_zeit : option string;
  re_ezZeit : option string;
  re_ueber : option (list string);
  re_gleis : option string;
  re_ezGleis : option string;
  re_meldungen : option (list raw_message);
  re_verkehrmittel : option raw_verkehrmittel
}.

Record raw_board : Type := mk_raw_board {
  rb_entries : option (list raw_entry)
}.


(** A message of a stop, read at "type" and "key". *)
Record raw_stop_message : Type := mk_raw_stop_message {
  sm_type : option string;
  sm_key : option string
}.

(** An entry of "halte".  The four time fields are read with [h.get(key)]:
    [None] is an absent key or a JSON null. *)
Record raw_halt : Type := mk_raw_halt {
  rh_name : option string;
  rh_evaNumber : option json;
  rh_extId : option json;
  rh_gleis : option string;
  rh_ezGleis : option string;
  rh_abfahrtsZeitpunkt : option string;
  rh_ezAbfahrtsZeitpunkt : option string;
  rh_ankunftsZeitpunkt : option string;
  rh_ezAnkunftsZeitpunkt : option string;
  rh_priorisierteMeldungen : option (list raw_stop_message);
  rh_risMeldungen : option (list raw_stop_message);
  rh_canceled : option bool;
  rh_additional : option bool
}.

Record raw_journey : Type := mk_raw_journey {
  rj_halte : option (list raw_halt);
  rj_zugName : option string;
  rj_reisetag : option string;
  rj_cancelled : option bool
}.

(** [d.get(key, dflt)] on such a field. *)
Definition get_or {A} (field : option A) (dflt : A) : A :=
  match field with Some v => v | None => dflt end.

(** [a or b] where [a] is [d.get(key)] of a string field. *)
Definition str_or (a : option string) (b : string) : string :=
  match a with
  | Some s => if decide (s = "") then b else s
  | None => b
  end.

Definition type_error (msg : string) : exn := OtherError "TypeError" msg.


(** [bool(v)] *)
Definition json_truthy (v : json) : bool :=
  match v with
  | JNull => false
  | JBool b => b
  | JInt z => negb (bool_decide (z = 0))
  | JFloat q => negb (Qeq_bool q 0)
  | JStr s => negb (bool_decide (s = ""))
  | JList l => negb (bool_decide (l = []))
  | JDict d => negb (bool_decide (d = []))
  end.

(** [a or None] where [a] is [d.get(key)] of a string field. *)
Definition str_or_None (a : option string) : option string :=
  match a with
  | Some s => if decide (s = "") then None else Some s
  | None => None
  end.

(** The dicts [get_journey] builds, one for each stop and one for the
    journey, as records of their keys. *)
Module Stop.
Record t : Type := mk {
  name : string;
  eva : json;
  platform : string;
  rt_platform : string;
  sched_dep : option string;
  rt_dep : option string;
  sched_arr : option string;
  rt_arr : option string;
  is_cancelled : bool;
  is_additional : bool
}.
End Stop.

Module Journey.
Record t : Type := mk {
  journey_id : string;
  train_name : string;
  date : string;
  is_cancelled : bool;
  stops : list Stop.t
}.
End Journey.

Section Conversions.
Context `{PyRuntime}.

(** [int(v)] *)
Definition py_int (v : json) : result Z :=
  match v with
  | JInt z => Ok z
  | JBool b => Ok (if b then 1 else 0)
  | JFloat q => Ok (Z.quot (Qnum q) (Z.pos (Qden q)))
  | JStr s =>
      match int_of_str s with
      | Some z => Ok z
      | None =>
          Raise (ValueError ("invalid literal for int() with base 10: " ++ str_repr s))
      end
  | JNull | JList _ | JDict _ =>
      Raise (type_error "int() argument must be a string, a bytes-like object or a real number")
  end.

(** [float(v)]; an [int] beyond the binary64 range is OverflowError. *)
Definition py_float (v : json) : result Q :=
  match v with
  | JFloat q => Ok q
  | JInt z =>
      if bool_decide (2 ^ 1024 - 2 ^ 970 ≤ Z.abs z) then
        Raise (OtherError "OverflowError" "int too large to convert to float")
      else Ok (inject_Z z)
  | JBool b => Ok (inject_Z (if b then 1 else 0))
  | JStr s =>
      match float_of_str s with
      | Some q => Ok q
      | None => Raise (ValueError ("could not convert string to float: " ++ str_repr s))
      end
  | JNull | JList _ | JDict _ =>
      Raise (type_error "float() argument must be a string or a real number")
  end.
End Conversions.


(* ===================================================================== *)
(** * domain/services.py: coordinates of a Hafas ID *)
(* ===================================================================== *)

Section HafasCoordinates.
Context `{PyRuntime}.

(** The pair is (lat, lon); the division by 1_000_000 is exact. *)
Definition parse_coords_from_hafas_id (hafas_id : string) : result (Q * Q) :=
  match re_search_number "@X=" hafas_id, re_search_number "@Y=" hafas_id with
  | Some x_group, Some y_group =>
      x ← py_int (JStr x_group);
      let lon := (inject_Z x / 1000000)%Q in
      y ← py_int (JStr y_group);
      let lat := (inject_Z y / 1000000)%Q in
      Ok (lat, lon)
  | _, _ =>
      Raise (ValueError
               ("Could not parse coordinates from Hafas ID: " ++ str_repr hafas_id
                ++ ". Expected @X=<lon*1e6> and @Y=<lat*1e6> tokens."))
  end.
End HafasCoordinates.

(* ===================================================================== *)
(** * application/departure_service.py *)
(* ===================================================================== *)

(** The client the service is constructed with, as the service sees it:
    the two coroutines it awaits. *)
Record Client : Type := mk_Client {
  search_stations : string → Z → result (list raw_location);
  client_get_departures :
    Z → string → string → string → list string → result raw_board
}.

Module DepartureService.
Section Service.
Context `{PyRuntime}.
Variable _client : Client.

Definition _map_location (raw : raw_location) : result Location.t :=
  eva ← py_int (get_or (rl_evaNumber raw) (get_or (rl_extId raw) (JInt 0)));
  lat ← py_float (get_or (rl_lat raw) (JFloat 0));
  lon ← py_float (get_or (rl_lon raw) (JFloat 0));
  Ok {| Location.eva := eva;
        Location.hafas_id := get_or (rl_id raw) "";
        Location.name := get_or (rl_name raw) "";
        Location.lat := lat;
        Location.lon := lon;
        Location.location_type := get_or (rl_type raw) "ST";
        Location.transport_modes := get_or (rl_products raw) [] |}.

Definition resolve_station (name : string) : result Location.t :=
  results ← search_stations _client name 10;
  match results with
  | [] => Raise (StationNotFoundError ("Station not found: " ++ name))
  | first :: _ =>
      match find (λ raw, bool_decide (rl_type raw = Some "ST")) results with
      | Some raw => _map_location raw
      | None => _map_location first
      end
  end.

(** The [try ... except ValueError] around the real-time field. *)
Definition parse_rt (ez_zeit_str : string) : result (option datetime) :=
  if decide (ez_zeit_str = "") then Ok None
  else
    match parse_bahn_datetime ez_zeit_str with
    | Ok dt => Ok (Some dt)
    | Raise (ValueError _) => Ok None
    | Raise e => Raise e
    end.

Definition _map_departure (raw : raw_entry) : result Departure.t :=
  let verkehrmittel :=
    get_or (re_verkehrmittel raw) (mk_raw_verkehrmittel None None None) in
  let train_name :=
    str_or (vk_langText verkehrmittel)
      (str_or (vk_mittelText verkehrmittel)
         (get_or (vk_kurzText verkehrmittel) "")) in
  let train_type := get_or (vk_kurzText verkehrmittel) "" in
  let ueber := get_or (re_ueber raw) [] in
  let via_stations := slice_from1 ueber in
  sched_dt ← parse_bahn_datetime (get_or (re_zeit raw) "");
  rt_dt ← parse_rt (get_or (re_ezZeit raw) "");
  let eff_dt := effective_time sched_dt rt_dt in
  delay ← delay_minutes sched_dt rt_dt;
  let meldungen := get_or (re_meldungen raw) [] in
  let cancelled := is_cancelled meldungen in
  let messages :=
    (λ m, mk_Message (get_or (m_type m) "") (get_or (m_text m) "")) <$> meldungen in
  Ok {| Departure.journey_id := get_or (re_journeyId raw) "";
        Departure.train_name := train_name;
        Departure.train_type := train_type;
        Departure.destination := get_or (re_terminus raw) "";
        Departure.via_stations := via_stations;
        Departure.platform := get_or (re_gleis raw) "";
        Departure.rt_platform := get_or (re_ezGleis raw) "";
        Departure.scheduled_departure := sched_dt;
        Departure.rt_departure := rt_dt;
        Departure.effective_departure := eff_dt;
        Departure.delay_minutes := delay;
        Departure.is_cancelled := cancelled;
        Departure.messages := messages |}.

(** The condition of the filtering comprehension. *)
Definition matches_destination (dest_lower : string) (d : Departure.t) : bool :=
  str_in dest_lower (str_lower (Departure.destination d))
  || existsb (λ via, str_in dest_lower (str_lower via)) (Departure.via_stations d).

(** [if destination_filter: ...]: None and the empty string filter nothing. *)
Definition apply_destination_filter (destination_filter : option string)
    (departures : list Departure.t) : list Departure.t :=
  match destination_filter with
  | None => departures
  | Some f =>
      if decide (f = "") then departures
      else
        let dest_lower := str_lower f in
        filter (λ d, matches_destination dest_lower d = true) departures
  end.

(** [utc_now] is the instant [now_berlin()] would read. *)
Definition get_departures (utc_now : Z) (station_name : string)
    (dt : option datetime) (modes : option (list TransportMode))
    (destination_filter : option string) (max_results : Z)
  : result (Location.t * list Departure.t) :=
  location ← resolve_station station_name;
  let effective_dt := match dt with Some d => d | None => now_berlin utc_now end in
  let datum := format_datum effective_dt in
  let zeit := format_zeit effective_dt in
  let mode_strings :=
    match modes with Some ms => mode_value <$> ms | None => [] end in
  raw_data ← client_get_departures _client (Location.eva location)
               (Location.hafas_id location) datum zeit mode_strings;
  let entries := get_or (rb_entries raw_data) [] in
  departures ← mapM _map_departure entries;
  let departures := apply_destination_filter destination_filter departures in
  Ok (location, slice_to departures max_results).
(** The third coroutine of the client the service awaits. *)
Variable client_get_journey : string → result raw_journey.

(** The condition under [any(...)] in [get_journey]. *)
Definition cancels_stop (m : raw_stop_message) : bool :=
  bool_decide (sm_type m = Some "HALT_AUSFALL")
  || bool_decide (sm_key m = Some "text.realtime.stop.cancelled").

(** The body of the loop over "halte". *)
Definition _map_stop (h : raw_halt) : Stop.t :=
  let rt_dep := str_or_None (rh_ezAbfahrtsZeitpunkt h) in
  let rt_arr := str_or_None (rh_ezAnkunftsZeitpunkt h) in
  let meldungen :=
    (get_or (rh_priorisierteMeldungen h) [] ++ get_or (rh_risMeldungen h) [])%list in
  let is_stop_cancelled :=
    get_or (rh_canceled h) false || existsb cancels_stop meldungen in
  {| Stop.name := get_or (rh_name h) "";
     Stop.eva :=
       match rh_evaNumber h with
       | Some v => if json_truthy v then v else get_or (rh_extId h) (JStr "")
       | None => get_or (rh_extId h) (JStr "")
       end;
     Stop.platform := get_or (rh_gleis h) "";
     Stop.rt_platform := get_or (rh_ezGleis h) "";
     Stop.sched_dep := rh_abfahrtsZeitpunkt h;
     Stop.rt_dep := rt_dep;
     Stop.sched_arr := rh_ankunftsZeitpunkt h;
     Stop.rt_arr := rt_arr;
     Stop.is_cancelled := is_stop_cancelled;
     Stop.is_additional := get_or (rh_additional h) false |}.

Definition get_journey (journey_id : string) : result Journey.t :=
  raw ← client_get_journey journey_id;
  let halte := get_or (rj_halte raw) [] in
  let stops := _map_stop <$> halte in
  Ok {| Journey.journey_id := journey_id;
        Journey.train_name := get_or (rj_zugName raw) "";
        Journey.date := get_or (rj_reisetag raw) "";
        Journey.is_cancelled := get_or (rj_cancelled raw) false;
        Journey.stops := stops |}.
End Service.
End DepartureService.

(* ===================================================================== *)
(** * mcp/tools.py *)
(* ===================================================================== *)

(** What a tool hands to [json.dumps]; the rendering as text is not
    modelled. *)
Inductive payload : Type :=
  | ErrorPayload (error : string)
  | DeparturesPayload (station : Location.t) (boardTime : option string)
      (departures : list Departure.t) (count : Z).

Record EmbeddedResource : Type := mk_EmbeddedResource {
  res_uri : string;
  res_mimeType : string;
  res_text : payload
}.

Module Tools.
Section Tools.
Context `{PyRuntime}.

Definition DATETIME_FORMAT : string := "%Y-%m-%dT%H:%M:%S".
Definition _RESULT_URI : string := "mcp://db-mcp/result".

Definition _as_resource (p : payload) : list EmbeddedResource :=
  [ {| res_uri := _RESULT_URI; res_mimeType := "application/json"; res_text := p |} ].

Definition _error_json (message : string) : payload := ErrorPayload message.

(** The resources returned and the lines written to the log. *)
Definition _handle_exception (exc : exn) : list EmbeddedResource * list string :=
  match exc with
  | StationNotFoundError _ => (_as_resource (_error_json (exn_str exc)), [])
  | ApiError status_code _ =>
      if bool_decide (status_code = 400) then
        (_as_resource (_error_json "Invalid request. Please check your inputs."), [])
      else if bool_decide (status_code = 404) then
        (_as_resource (_error_json "Resource not found."), [])
      else if bool_decide (500 ≤ status_code) then
        (_as_resource
           (_error_json ("Upstream API error (" ++ pretty status_code
                         ++ "). Please try again later.")), [])
      else (_as_resource (_error_json (exn_str exc)), [])
  | TimeoutException _ =>
      (_as_resource (_error_json "Request timed out. Please try again."), [])
  | ValueError _ => (_as_resource (_error_json (exn_str exc)), [])
  | ValidationError _ | OtherError _ _ =>
      (_as_resource (_error_json "An unexpected error occurred."),
       ["Unexpected error in MCP tool: " ++ exn_str exc])
  end.

Definition _parse_datetime_str (datetime_str : option string)
  : result (option datetime) :=
  match datetime_str with
  | None => Ok None
  | Some s =>
      match strptime s DATETIME_FORMAT with
      | Some w => Ok (Some {| wall := w; tz := Some BERLIN_TZ |})
      | None =>
          Raise (ValueError "Invalid datetime format, expected YYYY-MM-DDTHH:MM:SS")
      end
  end.

Definition _validate_modes (transport_modes : option (list string))
  : result (option (list TransportMode)) :=
  match transport_modes with
  | None => Ok None
  | Some l =>
      Some <$> mapM (λ mode,
        match mode_of_value (str_upper mode) with
        | Some m => Ok m
        | None => Raise (ValueError ("Unknown transport mode: " ++ mode))
        end) l
  end.

(** The tool [get_departures] registered by [register_tools]. *)
Definition get_departures (departure_svc : Client) (utc_now : Z)
    (station_name : string) (datetime_str : option string)
    (transport_modes : option (list string))
    (destination_filter : option string) (max_results : Z)
  : list EmbeddedResource * list string :=
  if decide (strip station_name = "") then
    (_as_resource (_error_json "Station name cannot be empty"), [])
  else
    let body : result payload :=
      dt ← _parse_datetime_str datetime_str;
      modes ← _validate_modes transport_modes;
      '(station, departures) ←
        DepartureService.get_departures departure_svc utc_now
          (strip station_name) dt modes destination_filter max_results;
      Ok (DeparturesPayload station
            (match dt with
             | Some d => Some (str_or datetime_str (isoformat d))
             | None => None
             end)
            departures (Z.of_nat (length departures))) in
    match body with
    | Ok p => (_as_resource p, [])
    | Raise exc => _handle_exception exc
    end.
End Tools.
End Tools.

(* ===================================================================== *)
(** * A reference runtime *)
(* ===================================================================== *)

(** An executable [PyRuntime], used to run the definitions above on
    concrete inputs.  It follows CPython on the inputs it accepts:
    - [lower] is [str.lower] on the code points below 256; [upper] is
      [str.upper] there except at 181 and 255, whose upper-case forms lie
      above 255 and are left as they are;
    - [repr] quotes with apostrophes (CPython's [repr] of a string of
      printable characters without apostrophe or backslash);
    - [fromisoformat] reads [YYYY-MM-DD[*HH[:MM[:SS[.fff[fff]]]][+HH:MM[:SS]]]],
      the grammar of CPython 3.7 to 3.10, which later versions extend;
    - [strptime] reads the zero-padded form of [%Y-%m-%dT%H:%M:%S];
    - [float] of a string reads decimal integers only;
    - Europe/Berlin follows the rule in force since 1996 (summer time from
      01:00 UTC on the last Sunday of March to 01:00 UTC on the last Sunday
      of October); the system's local zone is UTC. *)
Module Reference.

Definition map_chars (f : ascii → string) : string → string :=
  fix go s := match s with
              | EmptyString => EmptyString
              | String c s' => f c ++ go s'
              end.

Definition lower_chr (c : ascii) : string :=
  let n := N_of_ascii c in
  if ((65 <=? n) && (n <=? 90)
      || (192 <=? n) && (n <=? 222) && negb (n =? 215))%N
  then String (ascii_of_N (n + 32)) "" else String c "".

Definition upper_chr (c : ascii) : string :=
  let n := N_of_ascii c in
  if ((97 <=? n) && (n <=? 122)
      || (224 <=? n) && (n <=? 254) && negb (n =? 247))%N
  then String (ascii_of_N (n - 32)) ""
  else if (n =? 223)%N then "SS" else String c "".

Definition lower : string → string := map_chars lower_chr.
Definition upper : string → string := map_chars upper_chr.
Definition repr (s : string) : string := "'" ++ s ++ "'".

(** ** Proleptic Gregorian calendar ([datetime.py]: [_ymd2ord], [_ord2ymd]) *)

Definition is_leap (y : Z) : bool :=
  (y mod 4 =? 0) && (negb (y mod 100 =? 0) || (y mod 400 =? 0)).

Definition days_before_year (y : Z) : Z :=
  let y := y - 1 in y * 365 + y / 4 - y / 100 + y / 400.

Definition days_in_month (y m : Z) : Z :=
  if m =? 2 then (if is_leap y then 29 else 28)
  else if (m =? 4) || (m =? 6) || (m =? 9) || (m =? 11) then 30 else 31.

Definition days_before_month_tbl (m : Z) : Z :=
  nth (Z.to_nat m) [0; 0; 31; 59; 90; 120; 151; 181; 212; 243; 273; 304; 334] 0.

Definition days_before_month (y m : Z) : Z :=
  days_before_month_tbl m + (if (2 <? m) && is_leap y then 1 else 0).

Definition ymd2ord (y m d : Z) : Z :=
  days_before_year y + days_before_month y m + d.

Definition ord2ymd (n : Z) : Z * Z * Z :=
  let n := n - 1 in
  let n400 := n / 146097 in let n := n mod 146097 in
  let n100 := n / 36524 in let n := n mod 36524 in
  let n4 := n / 1461 in let n := n mod 1461 in
  let n1 := n / 365 in let n := n mod 365 in
  let year := n400 * 400 + 1 + n100 * 100 + n4 * 4 + n1 in
  if (n1 =? 4) || (n100 =? 4) then (year - 1, 12, 31)
  else
    let leapyear := (n1 =? 3) && (negb (n4 =? 24) || (n100 =? 3)) in
    let month := Z.shiftr (n + 50) 5 in
    let preceding :=
      days_before_month_tbl month + (if (2 <? month) && leapyear then 1 else 0) in
    if n <? preceding then
      let month := month - 1 in
      let preceding := preceding -
        (if (month =? 2) && leapyear then 29 else days_in_month 1 month) in
      (year, month, n - preceding + 1)
    else (year, month, n - preceding + 1).

(** Wall clock in microseconds from 0001-01-01T00:00:00. *)
Definition wall_of (y m d hh mm ss us : Z) : Z :=
  (ymd2ord y m d - 1) * US_PER_DAY + hh * US_PER_HOUR + mm * US_PER_MINUTE
  + ss * US_PER_SECOND + us.

(** ** Europe/Berlin *)

(** Ordinal of the last Sunday of a 31-day month (ordinal 1 is a Monday). *)
Definition last_sunday (y m : Z) : Z :=
  let o := ymd2ord y m 31 in o - (o mod 7).

Definition year_of_wall (w : Z) : Z := (ord2ymd (w / US_PER_DAY + 1)).1.1.

Definition CET : Z := US_PER_HOUR.
Definition CEST : Z := 2 * US_PER_HOUR.

Definition berlin_offset_at_utc (u : Z) : Z :=
  let y := year_of_wall u in
  let start := (last_sunday y 3 - 1) * US_PER_DAY + US_PER_HOUR in
  let stop := (last_sunday y 10 - 1) * US_PER_DAY + US_PER_HOUR in
  if (start <=? u) && (u <? stop) then CEST else CET.

Definition fromutc (u : Z) : Z := u + berlin_offset_at_utc u.

(** Offset at a wall clock (fold 0: the earlier reading of a repeated
    hour, the offset before the change for a skipped one). *)
Definition utcoffset_at_wall (w : Z) : Z :=
  let y := year_of_wall w in
  let start := (last_sunday y 3 - 1) * US_PER_DAY + 3 * US_PER_HOUR in
  let stop := (last_sunday y 10 - 1) * US_PER_DAY + 3 * US_PER_HOUR in
  if (start <=? w) && (w <? stop) then CEST else CET.

(** ** Reading and writing dates *)

Fixpoint read_digits (n : nat) (acc : Z) (s : string) : option (Z * string) :=
  match n with
  | O => Some (acc, s)
  | S n' =>
      match s with
      | String c s' => d ← digit_of c; read_digits n' (10 * acc + d) s'
      | EmptyString => None
      end
  end.

Definition expect (c : ascii) (s : string) : option string :=
  match s with
  | String a s' => if decide (a = c) then Some s' else None
  | EmptyString => None
  end.

Definition read_date (s : string) : option (Z * string) :=
  '(y, s) ← read_digits 4 0 s;
  s ← expect "-" s;
  '(m, s) ← read_digits 2 0 s;
  s ← expect "-" s;
  '(d, s) ← read_digits 2 0 s;
  if (1 <=? y) && (1 <=? m) && (m <=? 12) && (1 <=? d) && (d <=? days_in_month y m)
  then Some ((ymd2ord y m d - 1) * US_PER_DAY, s) else None.

(** [HH[:MM[:SS]]], in microseconds. *)
Definition read_hms (s : string) : option (Z * string) :=
  '(hh, s) ← read_digits 2 0 s;
  '(mm, s) ← match expect ":" s with
             | Some s' => read_digits 2 0 s'
             | None => Some (0, s)
             end;
  '(ss, s) ← match expect ":" s with
             | Some s' => read_digits 2 0 s'
             | None => Some (0, s)
             end;
  if (hh <=? 23) && (mm <=? 59) && (ss <=? 59)
  then Some (hh * US_PER_HOUR + mm * US_PER_MINUTE + ss * US_PER_SECOND, s)
  else None.

(** [.fff] or [.ffffff] *)
Definition read_fraction (s : string) : option (Z * string) :=
  match expect "." s with
  | None => Some (0, s)
  | Some s' =>
      match read_digits 6 0 s' with
      | Some r => Some r
      | None => '(ms, s'') ← read_digits 3 0 s'; Some (1000 * ms, s'')
      end
  end.

Definition read_offset (s : string) : option (option tzinfo) :=
  match s with
  | EmptyString => Some None
  | String c s' =>
      sign ← (if decide (c = "+"%char) then Some 1
              else if decide (c = "-"%char) then Some (-1) else None);
      '(off, rest) ← read_hms s';
      if decide (rest = "") then Some (Some (timezone (sign * off))) else None
  end.

Definition ref_fromisoformat (s : string) : option datetime :=
  '(day, s) ← read_date s;
  match s with
  | EmptyString => Some {| wall := day; tz := None |}
  | String _ s' =>
      '(t, s'') ← read_hms s';
      '(f, s''') ← read_fraction s'';
      z ← read_offset s''';
      Some {| wall := day + t + f; tz := z |}
  end.

Definition ref_strptime (s fmt : string) : option Z :=
  if decide (fmt = "%Y-%m-%dT%H:%M:%S") then
    '(day, s) ← read_date s;
    s ← expect "T" s;
    '(t, s) ← read_hms s;
    if decide (s = "") then Some (day + t) else None
  else None.

Definition pad (width : nat) (z : Z) : string :=
  let s := pretty z in
  String.concat "" (replicate (width - String.length s) "0") ++ s.

Definition fmt_date (w : Z) : string :=
  let '(y, m, d) := ord2ymd (w / US_PER_DAY + 1) in
  pad 4 y ++ "-" ++ pad 2 m ++ "-" ++ pad 2 d.

Definition fmt_time (w : Z) : string :=
  let t := w mod US_PER_DAY in
  pad 2 (t / US_PER_HOUR) ++ ":" ++ pad 2 (t mod US_PER_HOUR / US_PER_MINUTE)
  ++ ":" ++ pad 2 (t mod US_PER_MINUTE / US_PER_SECOND).

Definition ref_strftime (dt : datetime) (fmt : string) : string :=
  if decide (fmt = "%Y-%m-%d") then fmt_date (wall dt)
  else if decide (fmt = "%H:%M:%S") then fmt_time (wall dt)
  else "".

Definition ref_isoformat (dt : datetime) : string :=
  fmt_date (wall dt) ++ "T" ++ fmt_time (wall dt).

Definition ref_float_of_str (s : string) : option Q := inject_Z <$> int_of_str s.

Definition runtime : PyRuntime := {|
  str_lower := lower;
  str_upper := upper;
  str_repr := repr;
  float_of_str := ref_float_of_str;
  fromisoformat := ref_fromisoformat;
  strptime := ref_strptime;
  strftime := ref_strftime;
  isoformat := ref_isoformat;
  berlin_utcoffset := utcoffset_at_wall;
  berlin_fromutc := fromutc;
  local_utcoffset := λ _, 0;
  str_lower_empty := eq_refl
|}.
End Reference.

(* ===================================================================== *)
(** * Notions used to state the properties *)
(* ===================================================================== *)

(** [sub] occurs in [s] as a run of consecutive characters. *)
Definition contains (sub s : string) : Prop :=
  ∃ pre post, s = pre ++ sub ++ post.

(** [keeps P l k]: [k] lists, in the order of [l], exactly the elements of
    [l] that satisfy [P]. *)
Inductive keeps {A : Type} (P : A → Prop) : list A → list A → Prop :=
  | keeps_nil : keeps P [] []
  | keeps_take x l k : P x → keeps P l k → keeps P (x :: l) (x :: k)
  | keeps_drop x l k : ¬ P x → keeps P l k → keeps P (x :: l) k.

(** The first [n] elements of a list; nothing when [n] is not positive. *)
Definition first_n {A : Type} (n : Z) (l : list A) : list A := take (Z.to_nat n) l.

Section SpecNotions.
Context `{PyRuntime}.

(** The destination filter of the specification: the lower-cased filter
    occurs in the lower-cased destination or in a lower-cased via station. *)
Definition matches_filter (f : string) (d : Departure.t) : Prop :=
  contains (str_lower f) (str_lower (Departure.destination d))
  ∨ ∃ via, via ∈ Departure.via_stations d
           ∧ contains (str_lower f) (str_lower via).
End SpecNotions.

Section ServiceStages.
Context `{PyRuntime}.
Variable client : Client.

(** The board time [get_departures] uses. *)
Definition effective_dt (utc_now : Z) (dt : option datetime) : datetime :=
  match dt with Some d => d | None => now_berlin utc_now end.

(** The call to the client's [get_departures] that the service makes for
    a resolved station. *)
Definition fetch_board (utc_now : Z) (location : Location.t)
    (dt : option datetime) (modes : option (list TransportMode)) : result raw_board :=
  client_get_departures client (Location.eva location) (Location.hafas_id location)
    (format_datum (effective_dt utc_now dt)) (format_zeit (effective_dt utc_now dt))
    (match modes with Some ms => mode_value <$> ms | None => [] end).

(** Steps 1 to 5 of [get_departures]: the resolved station and the mapped
    departures, before filtering and truncation. *)
Definition mapped_departures (utc_now : Z) (station_name : string)
    (dt : option datetime) (modes : option (list TransportMode))
  : result (Location.t * list Departure.t) :=
  location ← DepartureService.resolve_station client station_name;
  raw_data ← fetch_board utc_now location dt modes;
  departures ← mapM DepartureService._map_departure (get_or (rb_entries raw_data) []);
  Ok (location, departures).
End ServiceStages.

(** The one resource a tool returns for an error message. *)
Definition error_resource (message : string) : list EmbeddedResource :=
  Tools._as_resource (Tools._error_json message).

(** A string without a comma. *)
Definition comma_free (s : string) : Prop := chr_in "," s = false.

(** A code of [TransportMode]. *)
Definition valid_mode (s : string) : Prop := ∃ m, mode_value m = s.

(** The value [_map_location] hands to [int()]. *)
Definition eva_source (raw : raw_location) : json :=
  get_or (rl_evaNumber raw) (get_or (rl_extId raw) (JInt 0)).

(** A JSON value that denotes no negative number: a number at or above
    zero, a boolean, or a string without a leading minus sign. *)
Definition json_nonneg (v : json) : bool :=
  match v with
  | JInt z => bool_decide (0 ≤ z)
  | JFloat q => Qle_bool 0 q
  | JBool _ => true
  | JStr s => negb (str_prefix "-" (strip s))
  | JNull | JList _ | JDict _ => false
  end.

(** Operations on a cache, to speak of what happens between two of them. *)
Inductive cache_op : Type :=
  | OpGet (key : string) (now : Q)
  | OpSet (key : string) (value : json) (ttl : option Z) (now : Q)
  | OpInvalidate (key : string).

Definition op_key (op : cache_op) : string :=
  match op with OpGet k _ | OpSet k _ _ _ | OpInvalidate k => k end.

Definition apply_op (c : TTLCache.t) (op : cache_op) : TTLCache.t :=
  match op with
  | OpGet k now => (TTLCache.get c k now).2
  | OpSet k v ttl now => TTLCache.set c k v ttl now
  | OpInvalidate k => TTLCache.invalidate c k
  end.

Definition run_ops (ops : list cache_op) (c : TTLCache.t) : TTLCache.t :=
  foldl apply_op c ops.

(** The time to live [set] uses. *)
Definition effective_ttl (c : TTLCache.t) (ttl : option Z) : Z :=
  match ttl with Some x => x | None => TTLCache._default_ttl c end.

(** The raw entry with its real-time field removed. *)
Definition without_ezZeit (raw : raw_entry) : raw_entry :=
  {| re_journeyId := re_journeyId raw; re_terminus := re_terminus raw;
     re_zeit := re_zeit raw; re_ezZeit := None; re_ueber := re_ueber raw;
     re_gleis := re_gleis raw; re_ezGleis := re_ezGleis raw;
     re_meldungen := re_meldungen raw; re_verkehrmittel := re_verkehrmittel raw |}.

(* ===================================================================== *)
(** * Sample data (from the test suite) *)
(* ===================================================================== *)

Module Sample.
Definition station_raw : raw_location :=
  {| rl_evaNumber := Some (JInt 8000105); rl_extId := Some (JStr "8000105");
     rl_id := Some "A=1@O=Frankfurt(Main)Hbf@X=8663785@Y=50107149@";
     rl_name := Some "Frankfurt(Main)Hbf";
     rl_lat := Some (JFloat (50107149 # 1000000));
     rl_lon := Some (JFloat (8663785 # 1000000));
     rl_type := Some "ST"; rl_products := Some ["ICE"] |}.

Definition departure_raw (journey_id terminus zeit ez_zeit : string) : raw_entry :=
  {| re_journeyId := Some journey_id; re_terminus := Some terminus;
     re_zeit := Some zeit; re_ezZeit := Some ez_zeit;
     re_ueber := Some ["Frankfurt(Main)Hbf"; "Mannheim Hbf"; "Stuttgart Hbf"];
     re_gleis := Some "7"; re_ezGleis := Some "";
     re_meldungen := Some [];
     re_verkehrmittel := Some (mk_raw_verkehrmittel (Some "ICE 619") (Some "ICE 619") (Some "ICE")) |}.

(** A mock client: one station, a fixed board. *)
Definition client (stations : list raw_location) (entries : list raw_entry) : Client :=
  {| search_stations := λ _ _, Ok stations;
     client_get_departures := λ _ _ _ _ _, Ok {| rb_entries := Some entries |} |}.

Definition board2 : list raw_entry :=
  [departure_raw "j1" "Muenchen Hbf" "2026-02-24T14:30:00" "2026-02-24T14:38:00";
   departure_raw "j2" "Hamburg Hbf" "2026-02-24T14:35:00" ""].

Definition board4 : list raw_entry :=
  board2 ++
  [departure_raw "j3" "Berlin Hbf" "2026-02-24T14:40:00" "";
   departure_raw "j4" "Koeln Hbf" "2026-02-24T14:45:00" ""].

(** 2026-02-24T13:00:00 UTC *)
Definition utc_now : Z := Reference.wall_of 2026 2 24 13 0 0 0.

Definition empty_cache : TTLCache.t := TTLCache.new 90.

(** A search result that carries its station number in [extId] only. *)
Definition ext_only_station_raw : raw_location :=
  {| rl_evaNumber := None; rl_extId := Some (JStr "8000105");
     rl_id := Some "A=1@O=Frankfurt(Main)Hbf@X=8663785@Y=50107149@";
     rl_name := Some "Frankfurt(Main)Hbf"; rl_lat := None; rl_lon := None;
     rl_type := Some "ST"; rl_products := None |}.

(** A board whose first entry has an unreadable real-time field and whose
    second entry has an unreadable scheduled field. *)
Definition bad_rt_entry : raw_entry :=
  departure_raw "j1" "Muenchen Hbf" "2026-02-24T14:30:00" "soon".
Definition bad_sched_entry : raw_entry :=
  departure_raw "j2" "Hamburg Hbf" "half past two" "".

(** A search result whose station number is negative. *)
Definition negative_station_raw : raw_location :=
  {| rl_evaNumber := Some (JInt (-1)); rl_extId := None; rl_id := None;
     rl_name := Some "Nowhere"; rl_lat := None; rl_lon := None;
     rl_type := Some "ST"; rl_products := None |}.
End Sample.

(* ===================================================================== *)
(** * Further notions used to state properties *)
(* ===================================================================== *)

(** The message a tool shows for an upstream response of a given status
    from 400 on. *)
Definition upstream_error_message (status : Z) : string :=
  if bool_decide (status = 400) then "Invalid request. Please check your inputs."
  else if bool_decide (status = 404) then "Resource not found."
  else if bool_decide (500 ≤ status) then
    "Upstream API error (" ++ pretty status ++ "). Please try again later."
  else "Upstream API error (" ++ pretty status ++ ")".

(** The key under which [_get] caches a request. *)
Definition get_cache_key (url : string) (params : list (string * param)) : string :=
  url ++ "?" ++ query_of params.

(** A look-up that yields nothing to serve: no entry, an expired entry, or
    a stored null. *)
Definition cache_miss (c : TTLCache.t) (key : string) (now : Q) : Prop :=
  (TTLCache.get c key now).1 = JNull.

(** The order of the sorted parameters is transitive and total. *)
Global Instance item_le_trans : Transitive item_le.
Proof. intros a b c. unfold item_le. apply transitivity. Qed.

Global Instance item_le_total : Total item_le.
Proof. intros a b. unfold item_le. apply total, _. Qed.

(** The value of a header in the dict [make_headers] returns. *)
Definition header_value (name : string) (headers : list (string * string))
  : option string :=
  snd <$> find (λ kv, bool_decide (kv.1 = name)) headers.

(** The messages [get_journey] inspects at a stop. *)
Definition halt_messages (h : raw_halt) : list raw_stop_message :=
  get_or (rh_priorisierteMeldungen h) [] ++ get_or (rh_risMeldungen h) [].

(** Every character of a string passes a test. *)
Fixpoint all_chars (P : ascii → bool) (s : string) : bool :=
  match s with
  | EmptyString => true
  | String c s' => P c && all_chars P s'
  end.

(** One or more digits, after an optional minus sign. *)
Definition is_signed_number (s : string) : bool :=
  let digits :=
    match s with
    | String c s' => if decide (c = "-"%char) then s' else s
    | EmptyString => s
    end in
  negb (bool_decide (digits = "")) && all_chars is_digit digits.

(** A Hafas ID in the format the docstring of [parse_coords_from_hafas_id]
    documents, for a station name and the two numbers as written. *)
Definition hafas_id_of (name x y : string) : string :=
  "A=1@O=" ++ name ++ "@X=" ++ x ++ "@Y=" ++ y ++ "@".

(** A raw mode string the tool accepts. *)
Section ModeNotions.
Context `{PyRuntime}.
Definition accepted_mode (mode : string) : Prop := valid_mode (str_upper mode).
End ModeNotions.

(* ===================================================================== *)
(** * Properties *)
(* ===================================================================== *)

(** ** The error monad *)

Lemma bind_Ok {A B} (f : A → result B) (a : A) : (Ok a ≫= f) = f a.
Proof. reflexivity. Qed.

Lemma bind_Raise {A B} (f : A → result B) (e : exn) : (Raise e ≫= f) = Raise e.
Proof. reflexivity. Qed.

Lemma bind_Ok_inv {A B} (f : A → result B) (m : result A) (b : B) :
  m ≫= f = Ok b → ∃ a, m = Ok a ∧ f a = Ok b.
Proof. destruct m as [a|e]; [eauto | discriminate]. Qed.

(** ** Delay computation *)

Section DelayProperties.
Context `{PyRuntime}.

Lemma whole_minutes_floor (d : Z) :
  0 ≤ d → whole_minutes d = d `div` US_PER_MINUTE.
Proof.
  intros Hd. unfold whole_minutes.
  apply Z.quot_div_nonneg; [done | by compute].
Qed.

Lemma whole_minutes_nonpos (d : Z) : d ≤ 0 → whole_minutes d ≤ 0.
Proof.
  intros Hd. unfold whole_minutes.
  rewrite <- (Z.opp_involutive d), Z.quot_opp_l by (by compute).
  assert (0 ≤ (- d) `quot` US_PER_MINUTE); [|lia].
  apply Z.quot_pos; [lia | by compute].
Qed.

(** Truncation toward zero followed by the clamp is the floor followed
    by the clamp. *)
Lemma trunc_clamp_is_floor_clamp (d : Z) :
  Z.max 0 (whole_minutes d) = Z.max 0 (d `div` US_PER_MINUTE).
Proof.
  destruct (decide (0 ≤ d)) as [Hd|Hd].
  - by rewrite whole_minutes_floor.
  - pose proof (whole_minutes_nonpos d ltac:(lia)).
    assert (d `div` US_PER_MINUTE < 0); [|lia].
    apply Z.div_lt_upper_bound; [by compute | lia].
Qed.

(** Order and difference of two datetimes agree. *)
Lemma dt_le_sub (a b : datetime) (d : timedelta) :
  dt_sub a b = Ok d → dt_le a b = Ok (bool_decide (d ≤ 0)).
Proof.
  unfold dt_sub, dt_le.
  destruct (tz a) as [[|oa]|], (tz b) as [[|ob]|]; intros [= <-];
    f_equal; apply bool_decide_ext; cbn; unfold timedelta in *.
  all: lia.
Qed.

(** Only a naive datetime against an aware one cannot be subtracted. *)
Lemma dt_sub_Raise (a b : datetime) (e : exn) :
  dt_sub a b = Raise e →
  e = naive_aware_error "subtract"
  ∧ (tz a = None ∧ tz b ≠ None ∨ tz a ≠ None ∧ tz b = None).
Proof.
  unfold dt_sub.
  destruct (tz a) as [[|oa]|], (tz b) as [[|ob]|]; intros [= <-];
    split; auto.
Qed.


(** Two datetimes in the Berlin zone, as [parse_bahn_datetime] returns
    them, are always subtracted, on their wall clocks. *)
Lemma delay_minutes_berlin (ws wr : Z) :
  delay_minutes (mk_datetime ws (Some BERLIN_TZ)) (Some (mk_datetime wr (Some BERLIN_TZ)))
  = Ok (Z.max 0 ((wr - ws) `div` US_PER_MINUTE)).
Proof.
  unfold delay_minutes, dt_sub. cbn.
  by rewrite trunc_clamp_is_floor_clamp.
Qed.
End DelayProperties.

(** Test-suite values: 8 minutes late, 2.5 minutes late, 2 minutes early. *)
Example delay_minutes_examples :
  let at_ h m s := mk_datetime (Reference.wall_of 2026 2 24 h m s 0) (Some BERLIN_TZ) in
  delay_minutes (H := Reference.runtime) (at_ 14 30 0) (Some (at_ 14 38 0)) = Ok 8
  ∧ delay_minutes (H := Reference.runtime) (at_ 14 0 0) (Some (at_ 14 2 30)) = Ok 2
  ∧ delay_minutes (H := Reference.runtime) (at_ 14 30 0) (Some (at_ 14 28 0)) = Ok 0
  ∧ delay_minutes (H := Reference.runtime) (at_ 14 30 0) (Some (at_ 14 29 30)) = Ok 0
  ∧ delay_minutes (H := Reference.runtime) (at_ 14 30 0) None = Ok 0.
Proof. repeat split; vm_compute; reflexivity. Qed.

(** ** TTL cache *)

Section CacheProperties.
Import TTLCache.

Lemma expired_false (now e : Q) : (now <= e)%Q → expired now e = false.
Proof.
  intros Hle. unfold expired. apply Qle_bool_iff in Hle. by rewrite Hle.
Qed.

Lemma expired_true (now e : Q) : (e < now)%Q → expired now e = true.
Proof.
  intros Hlt. unfold expired.
  destruct (Qle_bool now e) eqn:Hb; [|done].
  apply Qle_bool_iff in Hb. exfalso. lra.
Qed.

Lemma get_live (c : t) (key : string) (v : json) (e now : Q) :
  _store c !! key = Some (v, e) → (now <= e)%Q → get c key now = (v, c).
Proof.
  intros Hl Hle. unfold get. rewrite Hl. by rewrite expired_false.
Qed.

Lemma get_expired (c : t) (key : string) (v : json) (e now : Q) :
  _store c !! key = Some (v, e) → (e < now)%Q →
  get c key now = (JNull, invalidate c key).
Proof.
  intros Hl Hlt. unfold get. rewrite Hl. by rewrite expired_true.
Qed.

Lemma get_absent (c : t) (key : string) (now : Q) :
  _store c !! key = None → get c key now = (JNull, c).
Proof. intros Hl. unfold get. by rewrite Hl. Qed.

Lemma store_set (c : t) (key : string) (v : json) (ttl : option Z) (now : Q) :
  _store (set c key v ttl now) !! key
  = Some (v, (now + inject_Z (effective_ttl c ttl))%Q).
Proof. unfold set; cbn. rewrite lookup_insert_eq. by destruct ttl. Qed.

(** A [get] never touches another key's entry. *)
Lemma store_get_other (c : t) (k key : string) (now : Q) :
  k ≠ key → _store (get c k now).2 !! key = _store c !! key.
Proof.
  intros Hne. unfold get.
  destruct (_store c !! k) as [[v e]|]; [|done].
  destruct (expired now e); [|done].
  cbn. by rewrite lookup_delete_ne.
Qed.

Lemma store_apply_op_other (c : t) (op : cache_op) (key : string) :
  op_key op ≠ key → _store (apply_op c op) !! key = _store c !! key.
Proof.
  destruct op as [k now|k v ttl now|k]; cbn; intros Hne.
  - by apply store_get_other.
  - by rewrite lookup_insert_ne.
  - by rewrite lookup_delete_ne.
Qed.

(** Operations on other keys leave an entry as it is. *)
Lemma store_run_ops_other (ops : list cache_op) (c : t) (key : string) :
  Forall (λ op, op_key op ≠ key) ops →
  _store (run_ops ops c) !! key = _store c !! key.
Proof.
  unfold run_ops. intros Hall. revert c.
  induction Hall as [|op ops Hop _ IH]; intros c; [done|].
  cbn. rewrite IH. by apply store_apply_op_other.
Qed.

End CacheProperties.


(** ** Upstream gateway: status handling *)

Section GatewayProperties.
Import BahnClient.

Lemma raise_for_status_404 (r : Response) :
  resp_status_code r = 404 →
  _raise_for_status r
  = Raise (ApiError 404 ("Resource not found (404): " ++ resp_url r)).
Proof.
  intros Hs. unfold _raise_for_status. rewrite Hs.
  rewrite bool_decide_eq_true_2 by done. reflexivity.
Qed.

Lemma raise_for_status_ge_400 (r : Response) :
  400 ≤ resp_status_code r → resp_status_code r ≠ 404 →
  _raise_for_status r
  = Raise (ApiError (resp_status_code r)
             ("Upstream API error (" ++ pretty (resp_status_code r) ++ ")")).
Proof.
  intros Hge Hne. unfold _raise_for_status.
  rewrite bool_decide_eq_false_2 by done.
  rewrite bool_decide_eq_true_2 by done. reflexivity.
Qed.

(** Every status below 400 passes the check: 2xx, but also 1xx and 3xx. *)
Lemma raise_for_status_lt_400 (r : Response) :
  resp_status_code r < 400 → _raise_for_status r = Ok ().
Proof.
  intros Hlt. unfold _raise_for_status.
  rewrite !bool_decide_eq_false_2 by lia. reflexivity.
Qed.

(** The check fails exactly from 400 on. *)
Lemma raise_for_status_fails_iff (r : Response) :
  is_Ok (_raise_for_status r) = false ↔ 400 ≤ resp_status_code r.
Proof.
  destruct (decide (resp_status_code r < 400)) as [Hlt|Hge].
  - rewrite raise_for_status_lt_400 by done. cbn. split; [done | lia].
  - destruct (decide (resp_status_code r = 404)) as [H404|Hne].
    + rewrite raise_for_status_404 by done. cbn. split; [lia | done].
    + rewrite raise_for_status_ge_400 by lia. cbn. split; [lia | done].
Qed.

(** A cache miss followed by a response whose status is below 400 and
    whose body is JSON: the body is returned and written to the cache. *)
Lemma get_miss_stores (cache : TTLCache.t) (url : string)
    (params : list (string * param)) (ttl : option Z) (t_get t_set : Q)
    (r : Response) (data : json) :
  TTLCache._store cache !! (url ++ "?" ++ query_of params) = None →
  resp_status_code r < 400 → resp_json r = Ok data →
  _get cache url params ttl t_get t_set (Ok r)
  = (Ok data, TTLCache.set cache (url ++ "?" ++ query_of params) data ttl t_set).
Proof.
  intros Hmiss Hlt Hbody. unfold _get.
  rewrite get_absent by done. unfold fetch. cbn.
  rewrite raise_for_status_lt_400 by done. cbn. by rewrite Hbody.
Qed.

(** A cache miss followed by a response from 400 on: the typed failure,
    carrying the status, and no write to the cache. *)
Lemma get_miss_fails (cache : TTLCache.t) (url : string)
    (params : list (string * param)) (ttl : option Z) (t_get t_set : Q)
    (r : Response) :
  TTLCache._store cache !! (url ++ "?" ++ query_of params) = None →
  400 ≤ resp_status_code r →
  ∃ msg, _get cache url params ttl t_get t_set (Ok r)
         = (Raise (ApiError (resp_status_code r) msg), cache).
Proof.
  intros Hmiss Hge. unfold _get.
  rewrite get_absent by done. unfold fetch. cbn.
  destruct (decide (resp_status_code r = 404)) as [H404|Hne].
  - rewrite raise_for_status_404 by done. rewrite H404. eauto.
  - rewrite raise_for_status_ge_400 by done. eauto.
Qed.
End GatewayProperties.

(** C2.  The gateway at responses that are neither 2xx nor from 400 on.
    Status 300 with a JSON body: the status check passes, the call returns
    the body and writes it to the cache, from which the next call is
    served.  Status 304 with an empty body: the call fails, but with the
    ValueError of the JSON decoder, not with the typed upstream failure. *)
Theorem gateway_accepts_status_3xx :
  let url := BASE_URL ++ "/reiseloesung/orte" in
  let params := [("suchbegriff", PStr "Frankfurt"); ("typ", PStr "ALL"); ("limit", PInt 10)] in
  let choices := {| resp_status_code := 300; resp_url := url; resp_json := Ok (JList []) |} in
  let not_modified :=
    {| resp_status_code := 304; resp_url := url;
       resp_json := Raise (ValueError "Expecting value: line 1 column 1 (char 0)") |} in
  let first := BahnClient._get Sample.empty_cache url params (Some TTL_STATIONS) 0 1 (Ok choices) in
  BahnClient._raise_for_status choices = Ok ()
  ∧ BahnClient._raise_for_status not_modified = Ok ()
  ∧ first.1 = Ok (JList [])
  ∧ TTLCache.get first.2 (url ++ "?" ++ query_of params) 2 = (JList [], first.2)
  ∧ (BahnClient._get Sample.empty_cache url params (Some TTL_STATIONS) 0 1 (Ok not_modified)).1
    = Raise (ValueError "Expecting value: line 1 column 1 (char 0)").
Proof. vm_compute. repeat split; reflexivity. Qed.

(** ** Tool-facing error boundary *)

Section BoundaryProperties.
Import Tools.

(** C6 (as the code has it).  NotFound passes its message through; an
    upstream failure becomes a fixed "invalid request" message for status
    400, a fixed "not found" message for status 404, a "try again later"
    message naming the code from 500 on, and passes its message through
    for every other status; a timeout becomes a fixed "timed out"
    message; a ValueError passes its message through; every other
    failure becomes one fixed "unexpected error" message, the detail
    going to the log only.  The result is always a single resource
    holding an error payload. *)
Theorem handle_exception_table :
  (∀ m, _handle_exception (StationNotFoundError m) = (error_resource m, []))
  ∧ (∀ m, _handle_exception (ApiError 400 m)
          = (error_resource "Invalid request. Please check your inputs.", []))
  ∧ (∀ m, _handle_exception (ApiError 404 m)
          = (error_resource "Resource not found.", []))
  ∧ (∀ s m, 500 ≤ s →
        _handle_exception (ApiError s m)
        = (error_resource ("Upstream API error (" ++ pretty s
                           ++ "). Please try again later."), []))
  ∧ (∀ s m, s ≠ 400 → s ≠ 404 → s < 500 →
        _handle_exception (ApiError s m) = (error_resource m, []))
  ∧ (∀ m, _handle_exception (TimeoutException m)
          = (error_resource "Request timed out. Please try again.", []))
  ∧ (∀ m, _handle_exception (ValueError m) = (error_resource m, []))
  ∧ (∀ exc, (∃ m, exc = ValidationError m) ∨ (∃ cls m, exc = OtherError cls m) →
        _handle_exception exc
        = (error_resource "An unexpected error occurred.",
           ["Unexpected error in MCP tool: " ++ exn_str exc]))
  ∧ (∀ exc, ∃ message, (_handle_exception exc).1 = error_resource message).
Proof.
  repeat split.
  - intros s m Hs. unfold _handle_exception.
    rewrite !bool_decide_eq_false_2 by lia.
    by rewrite bool_decide_eq_true_2 by done.
  - intros s m H400 H404 H500. unfold _handle_exception.
    by rewrite !bool_decide_eq_false_2 by lia.
  - intros exc [(m & ->)|(cls & m & ->)]; done.
  - intros exc. destruct exc as [m|s m|m|m|m|cls m]; cbn; eauto.
    repeat case_bool_decide; eauto.
Qed.
End BoundaryProperties.

Lemma handle_exception_table_witness :
  500 ≤ 503
  ∧ 403 ≠ 400 ∧ 403 ≠ 404 ∧ 403 < 500
  ∧ Tools._handle_exception (new_ApiError 503 "")
    = (error_resource "Upstream API error (503). Please try again later.", [])
  ∧ Tools._handle_exception (new_ApiError 403 "")
    = (error_resource "Upstream API error (403)", [])
  ∧ Tools._handle_exception (OtherError "RuntimeError" "boom")
    = (error_resource "An unexpected error occurred.",
       ["Unexpected error in MCP tool: boom"]).
Proof.
  destruct handle_exception_table
    as (_ & _ & _ & H5xx & Hother & _ & _ & Hunknown & _).
  split; [lia|]. split; [lia|]. split; [lia|]. split; [lia|].
  split; [|split].
  - apply (H5xx 503). lia.
  - apply (Hother 403); lia.
  - apply Hunknown. right. eauto.
Defined.

(** C6 as the specification words it fails at status 400: the failure the
    gateway raises for a 400 response does not have its message passed
    through. *)
Lemma handle_exception_400_not_passed_through :
  let exc := new_ApiError 400 "" in
  400 ≠ 404 ∧ ¬ 500 ≤ 400
  ∧ (Tools._handle_exception exc).1
    = error_resource "Invalid request. Please check your inputs."
  ∧ (Tools._handle_exception exc).1
    ≠ error_resource (exn_str exc).
Proof.
  intros exc. split; [lia|]. split; [lia|]. split; [reflexivity|].
  vm_compute. discriminate.
Qed.

(** ** Cache key of the departure board *)

Section CacheKeyProperties.
Import BahnClient.

Lemma str_app_nil_r (s : string) : s ++ "" = s.
Proof.
  induction s as [|a s IH]; [done|].
  change (String a (s ++ "") = String a s). by rewrite IH.
Qed.

Lemma str_app_eq_nil (s t : string) : s ++ t = "" → s = "".
Proof. by destruct s. Qed.

Lemma join_cons (sep x : string) (l : list string) :
  join sep (x :: l)
  = x ++ match l with [] => "" | _ :: _ => sep ++ join sep l end.
Proof. destruct l; [by rewrite str_app_nil_r | done]. Qed.

Lemma valid_mode_comma_free (s : string) :
  valid_mode s → comma_free s ∧ s ≠ "".
Proof. intros [m <-]. by destruct m. Qed.

(** Two comma-free strings, each followed by nothing or by a comma and
    more: equal wholes have equal parts. *)
Lemma app_comma_tail_inj (x y r1 r2 : string) :
  comma_free x → comma_free y →
  (r1 = "" ∨ ∃ r, r1 = String "," r) →
  (r2 = "" ∨ ∃ r, r2 = String "," r) →
  x ++ r1 = y ++ r2 → x = y ∧ r1 = r2.
Proof.
  unfold comma_free. revert y.
  induction x as [|a x IH]; intros [|b y] Hx Hy Hr1 Hr2 Heq; cbn in *.
  - done.
  - destruct Hr1 as [->|[r ->]]; [done|].
    injection Heq as <- _. by rewrite decide_True in Hy.
  - destruct Hr2 as [->|[r ->]]; [done|].
    injection Heq as -> _. by rewrite decide_True in Hx.
  - injection Heq as -> Heq.
    destruct (decide (b = ","%char)) as [|Hb]; [done|].
    destruct (IH y Hx Hy Hr1 Hr2 Heq) as [-> ->]. done.
Qed.

Lemma join_comma_inj (l1 l2 : list string) :
  Forall (λ s, comma_free s ∧ s ≠ "") l1 →
  Forall (λ s, comma_free s ∧ s ≠ "") l2 →
  join "," l1 = join "," l2 → l1 = l2.
Proof.
  intros H1. revert l2.
  induction H1 as [|x l1 [Hx Hxne] H1 IH]; intros l2 H2 Heq.
  - destruct H2 as [|y l2 [Hy Hyne] H2]; [done|].
    rewrite join_cons in Heq. symmetry in Heq.
    by apply str_app_eq_nil in Heq.
  - destruct H2 as [|y l2 [Hy Hyne] H2].
    + rewrite join_cons in Heq. by apply str_app_eq_nil in Heq.
    + rewrite !join_cons in Heq.
      apply app_comma_tail_inj in Heq as [-> Htail]; [|done|done|..].
      * f_equal. destruct l1 as [|x1 l1], l2 as [|y1 l2]; try done.
        apply IH; [done|]. by injection Htail.
      * destruct l1; [by left | right; eauto].
      * destruct l2; [by left | right; eauto].
Qed.

(** [sorted] does not depend on the order of its argument, and loses
    nothing of it. *)
Lemma sorted_Permutation (l1 l2 : list string) :
  l1 ≡ₚ l2 → sorted l1 = sorted l2.
Proof.
  intros Hp. unfold sorted.
  apply (Sorted_unique String.le).
  - apply Sorted_merge_sort; apply _.
  - apply Sorted_merge_sort; apply _.
  - by rewrite !merge_sort_Permutation.
Qed.

Lemma sorted_eq_Permutation (l1 l2 : list string) :
  sorted l1 = sorted l2 → l1 ≡ₚ l2.
Proof.
  unfold sorted. intros Heq.
  rewrite <- (merge_sort_Permutation String.le l1), Heq.
  apply merge_sort_Permutation.
Qed.

(** The key is the endpoint, the sorted base parameters, and the joined
    sorted modes. *)
Lemma departures_cache_key_eq (eva : Z) (hafas_id datum zeit : string)
    (modes : list string) :
  departures_cache_key eva hafas_id datum zeit modes
  = departures_url ++ "?"
    ++ query_of (departures_base_params eva hafas_id datum zeit)
    ++ "&modes=" ++ join "," (sorted modes).
Proof. by destruct modes. Qed.

(** C8.  For the same endpoint and query parameters, two mode lists that
    are permutations of each other give the same cache key; two lists of
    valid mode codes that give the same key are permutations of each
    other; so two lists of valid codes that differ as sets (one of them
    possibly empty) give different keys. *)
Theorem departures_cache_key_modes (eva : Z) (hafas_id datum zeit : string)
    (m1 m2 : list string) :
  let key := departures_cache_key eva hafas_id datum zeit in
  (m1 ≡ₚ m2 → key m1 = key m2)
  ∧ (Forall valid_mode m1 → Forall valid_mode m2 → key m1 = key m2 → m1 ≡ₚ m2)
  ∧ (Forall valid_mode m1 → Forall valid_mode m2 →
     ¬ (∀ x, x ∈ m1 ↔ x ∈ m2) → key m1 ≠ key m2).
Proof.
  intros key.
  assert (Forall valid_mode m1 → Forall valid_mode m2 → key m1 = key m2 → m1 ≡ₚ m2)
    as Hinj.
  { intros Hv1 Hv2 Hkey. unfold key in Hkey.
    rewrite !departures_cache_key_eq in Hkey.
    do 4 apply String.app_inj in Hkey.
    apply sorted_eq_Permutation, join_comma_inj; [..|done].
    - unfold sorted. rewrite merge_sort_Permutation.
      eapply Forall_impl; [exact Hv1 | apply valid_mode_comma_free].
    - unfold sorted. rewrite merge_sort_Permutation.
      eapply Forall_impl; [exact Hv2 | apply valid_mode_comma_free]. }
  split; [|split; [exact Hinj|]].
  - intros Hp. unfold key. rewrite !departures_cache_key_eq.
    by rewrite (sorted_Permutation m1 m2).
  - intros Hv1 Hv2 Hdiff Hkey. apply Hdiff. intros x.
    by rewrite (Hinj Hv1 Hv2 Hkey).
Qed.
End CacheKeyProperties.

Lemma departures_cache_key_modes_witness :
  let key := BahnClient.departures_cache_key 8000105 "A=1@O=Frankfurt" "2026-02-24" "14:00:00" in
  (["REGIONAL"; "ICE"] ≡ₚ ["ICE"; "REGIONAL"]
   ∧ key ["REGIONAL"; "ICE"] = key ["ICE"; "REGIONAL"])
  ∧ (Forall valid_mode [] ∧ Forall valid_mode ["ICE"]
     ∧ ¬ (∀ x : string, x ∈ [] ↔ x ∈ ["ICE"])
     ∧ key [] ≠ key ["ICE"])
  ∧ key ["REGIONAL"; "ICE"]
    = "https://www.bahn.de/web/api/reiseloesung/abfahrten?datum=2026-02-24&maxVias=5&mitVias=true&ortExtId=8000105&ortId=A=1@O=Frankfurt&zeit=14:00:00&modes=ICE,REGIONAL".
Proof.
  intros key.
  assert (["REGIONAL"; "ICE"] ≡ₚ ["ICE"; "REGIONAL"]) as Hp by apply Permutation_swap.
  assert (Forall valid_mode ["ICE"]) as Hv.
  { constructor; [by exists ICE | constructor]. }
  assert (¬ (∀ x : string, x ∈ [] ↔ x ∈ ["ICE"])) as Hdiff.
  { intros Hall. apply (not_elem_of_nil "ICE"), Hall. by left. }
  split; [split; [exact Hp|]|split; [|reflexivity]].
  - by apply (departures_cache_key_modes 8000105 "A=1@O=Frankfurt" "2026-02-24" "14:00:00").
  - split; [constructor|]. split; [exact Hv|]. split; [exact Hdiff|].
    apply (departures_cache_key_modes 8000105 "A=1@O=Frankfurt" "2026-02-24" "14:00:00" [] ["ICE"]);
      [constructor | exact Hv | exact Hdiff].
Defined.

(** ** Substring test *)

Lemma str_app_cons (a : ascii) (s t : string) : String a s ++ t = String a (s ++ t).
Proof. reflexivity. Qed.

Lemma str_prefix_spec (p s : string) :
  str_prefix p s = true ↔ ∃ post, s = p ++ post.
Proof.
  revert s. induction p as [|a p IH]; intros s.
  - split; [intros _; by exists s | done].
  - destruct s as [|b s]; cbn [str_prefix].
    + split; [done | intros [post Hp]; by rewrite str_app_cons in Hp].
    + destruct (decide (a = b)) as [->|Hne].
      * rewrite IH. split; intros [post Hp]; exists post.
        -- by rewrite str_app_cons, Hp.
        -- rewrite str_app_cons in Hp. by injection Hp.
      * split; [done | intros [post Hp]].
        rewrite str_app_cons in Hp. injection Hp as Hab _. by destruct Hne.
Qed.

Lemma str_in_spec (sub s : string) : str_in sub s = true ↔ contains sub s.
Proof.
  unfold contains. induction s as [|a s IH]; cbn [str_in].
  - rewrite orb_false_r, str_prefix_spec. split.
    + intros [post Hp]. by exists "", post.
    + intros (pre & post & Hp). destruct pre as [|b pre]; [by exists post|].
      by rewrite str_app_cons in Hp.
  - rewrite orb_true_iff, IH, str_prefix_spec. split.
    + intros [[post Hp] | (pre & post & Hp)].
      * by exists "", post.
      * exists (String a pre), post. by rewrite str_app_cons, Hp.
    + intros (pre & post & Hp). destruct pre as [|b pre].
      * left. by exists post.
      * right. rewrite str_app_cons in Hp. injection Hp as _ Hp. by exists pre, post.
Qed.

Lemma contains_empty (s : string) : contains "" s.
Proof. by exists "", s. Qed.

(** ** Keeping the elements that satisfy a property *)

Lemma keeps_filter {A} (P Q : A → Prop) `{!∀ x, Decision (Q x)} (l : list A) :
  (∀ x, Q x ↔ P x) → keeps P l (filter Q l).
Proof.
  intros HQP. induction l as [|x l IH]; [constructor|].
  rewrite filter_cons. destruct (decide (Q x)) as [Hq|Hq].
  - apply keeps_take; [by apply HQP | done].
  - apply keeps_drop; [by rewrite <- HQP | done].
Qed.

Lemma keeps_all {A} (P : A → Prop) (l : list A) : (∀ x, P x) → keeps P l l.
Proof. intros HP. induction l; constructor; auto. Qed.

(** [keeps] determines its result. *)
Lemma keeps_functional {A} (P : A → Prop) (l k1 k2 : list A) :
  keeps P l k1 → keeps P l k2 → k1 = k2.
Proof.
  intros H1. revert k2.
  induction H1 as [|x l k Hx _ IH|x l k Hx _ IH]; intros k2 H2;
    inversion H2; subst; try done.
  - f_equal. by apply IH.
  - by apply IH.
Qed.

(** The relative order of the kept elements is that of the list. *)
Lemma keeps_sublist {A} (P : A → Prop) (l k : list A) :
  keeps P l k → k `sublist_of` l.
Proof. induction 1; by constructor. Qed.

Lemma keeps_elem_of {A} (P : A → Prop) (l k : list A) (x : A) :
  keeps P l k → x ∈ k ↔ x ∈ l ∧ P x.
Proof.
  induction 1 as [|y l k Hy _ IH|y l k Hy _ IH].
  - split; [by intros ?%elem_of_nil | by intros [?%elem_of_nil _]].
  - rewrite !elem_of_cons, IH. intuition (subst; auto).
  - rewrite elem_of_cons, IH. intuition (subst; tauto).
Qed.

(** ** Slices *)

Lemma slice_to_nonneg {A} (l : list A) (n : Z) :
  0 ≤ n → slice_to l n = first_n n l.
Proof.
  intros Hn. unfold slice_to, first_n.
  by rewrite (proj2 (Z.leb_le 0 n) Hn).
Qed.

Lemma slice_to_neg {A} (l : list A) (n : Z) :
  n < 0 → slice_to l n = take (length l - Z.to_nat (- n)) l.
Proof.
  intros Hn. unfold slice_to.
  by rewrite (proj2 (Z.leb_gt 0 n) Hn).
Qed.

(** For a stop that is not negative the slice is no longer than the stop. *)
Lemma slice_to_length_le {A} (l : list A) (n : Z) :
  0 ≤ n → Z.of_nat (length (slice_to l n)) ≤ n.
Proof.
  intros Hn. rewrite slice_to_nonneg by done. unfold first_n.
  rewrite length_take. lia.
Qed.

(** ** Destination filter, then truncation *)

Section FilterProperties.
Context `{PyRuntime}.
Import DepartureService.

Lemma matches_destination_spec (f : string) (d : Departure.t) :
  matches_destination (str_lower f) d = true ↔ matches_filter f d.
Proof.
  unfold matches_destination, matches_filter.
  rewrite orb_true_iff, str_in_spec, existsb_exists.
  split; (intros [Hd|(via & Hin & Hvia)]; [by left | right; exists via]).
  - by rewrite list_elem_of_In, <- str_in_spec.
  - by rewrite <- list_elem_of_In, str_in_spec.
Qed.

(** The filter of the code keeps what the filter of the specification
    keeps; the empty filter keeps everything on both sides. *)
Lemma apply_destination_filter_keeps (f : string) (deps : list Departure.t) :
  keeps (matches_filter f) deps (apply_destination_filter (Some f) deps).
Proof.
  unfold apply_destination_filter.
  destruct (decide (f = "")) as [->|Hf].
  - apply keeps_all. intros d. left. rewrite str_lower_empty.
    apply contains_empty.
  - apply keeps_filter. intros d. apply matches_destination_spec.
Qed.

(** [get_departures] is its first five steps followed by the filter and
    the slice. *)
Lemma get_departures_split (client : Client) (utc_now : Z) (station_name : string)
    (dt : option datetime) (modes : option (list TransportMode))
    (destination_filter : option string) (max_results : Z) :
  get_departures client utc_now station_name dt modes destination_filter max_results
  = '(location, departures) ← mapped_departures client utc_now station_name dt modes;
    Ok (location,
        slice_to (apply_destination_filter destination_filter departures) max_results).
Proof.
  unfold get_departures, mapped_departures, fetch_board, effective_dt.
  destruct (resolve_station client station_name) as [location|e]; [|done].
  cbn. destruct (client_get_departures _ _ _ _ _ _) as [raw_data|e]; [|done].
  cbn. by destruct (mapM _ _).
Qed.


(** C10.  A negative maxResults passes the tool layer unchanged, and the
    service then returns the filtered list without its last |maxResults|
    elements: a list that is longer than |maxResults| as soon as the
    filtered list is more than twice as long. *)
Theorem get_departures_negative_max_results (client : Client) (utc_now : Z)
    (station_name : string) (datetime_str : option string)
    (transport_modes : option (list string)) (destination_filter : option string)
    (max_results : Z) (dt : option datetime) (modes : option (list TransportMode))
    (location : Location.t) (departures : list Departure.t) :
  strip station_name ≠ "" →
  Tools._parse_datetime_str datetime_str = Ok dt →
  Tools._validate_modes transport_modes = Ok modes →
  mapped_departures client utc_now (strip station_name) dt modes
  = Ok (location, departures) →
  max_results < 0 →
  let kept := apply_destination_filter destination_filter departures in
  let returned := take (length kept - Z.to_nat (- max_results)) kept in
  get_departures client utc_now (strip station_name) dt modes destination_filter max_results
  = Ok (location, returned)
  ∧ length returned = (length kept - Z.to_nat (- max_results))%nat
  ∧ (Tools.get_departures client utc_now station_name datetime_str transport_modes
       destination_filter max_results).1
    = Tools._as_resource
        (DeparturesPayload location
           (match dt with
            | Some d => Some (str_or datetime_str (isoformat d))
            | None => None
            end)
           returned (Z.of_nat (length returned)))
  ∧ ((2 * Z.to_nat (- max_results) < length kept)%nat →
     - max_results < Z.of_nat (length returned)
     ∧ ¬ Z.of_nat (length returned) ≤ max_results).
Proof.
  intros Hname Hdt Hmodes Hmapped Hneg kept returned.
  assert (get_departures client utc_now (strip station_name) dt modes
            destination_filter max_results = Ok (location, returned)) as Hget.
  { rewrite get_departures_split, Hmapped. cbn. by rewrite slice_to_neg. }
  assert (length returned = (length kept - Z.to_nat (- max_results))%nat) as Hlen.
  { unfold returned. rewrite length_take. lia. }
  split; [done|]. split; [done|]. split.
  - unfold Tools.get_departures. rewrite decide_False by done.
    rewrite Hdt. cbn. rewrite Hmodes. cbn. by rewrite Hget.
  - intros Hlong. rewrite Hlen. lia.
Qed.
End FilterProperties.



(** Four departures and maxResults = -1: three departures come back,
    through the tool as well. *)
Lemma get_departures_negative_max_results_witness :
  let client := Sample.client [Sample.station_raw] Sample.board4 in
  strip "Frankfurt" ≠ "" ∧ -1 < 0
  ∧ ∃ location departures returned,
      mapped_departures (H := Reference.runtime) client Sample.utc_now
        (strip "Frankfurt") None None = Ok (location, departures)
      ∧ DepartureService.get_departures (H := Reference.runtime) client Sample.utc_now
          (strip "Frankfurt") None None None (-1) = Ok (location, returned)
      ∧ length returned = 3%nat
      ∧ (Tools.get_departures (H := Reference.runtime) client Sample.utc_now
           "Frankfurt" None None None (-1)).1
        = Tools._as_resource (DeparturesPayload location None returned 3)
      ∧ - (-1) < Z.of_nat (length returned).
Proof.
  intros client.
  assert (strip "Frankfurt" ≠ "") as Hname by (vm_compute; discriminate).
  split; [exact Hname|]. split; [lia|].
  destruct (mapped_departures (H := Reference.runtime) client Sample.utc_now
              (strip "Frankfurt") None None) as [[location departures]|e] eqn:Hmapped;
    [|by vm_compute in Hmapped].
  assert (length departures = 4%nat) as Hlen.
  { assert (mapped_departures (H := Reference.runtime) client Sample.utc_now
              (strip "Frankfurt") None None
            ≫= (λ r : Location.t * list Departure.t, Ok (length r.2)) = Ok 4%nat) as Hrun
      by (vm_compute; reflexivity).
    rewrite Hmapped in Hrun. cbn in Hrun. by injection Hrun. }
  destruct (get_departures_negative_max_results (H := Reference.runtime) client
              Sample.utc_now "Frankfurt" None None None (-1) None None
              location departures Hname eq_refl eq_refl Hmapped ltac:(lia))
    as (Hget & Hreturned & Htool & Hmore).
  cbn [DepartureService.apply_destination_filter] in Hget, Hreturned, Htool, Hmore.
  rewrite Hlen in Hget, Hreturned, Htool, Hmore.
  change (4 - Z.to_nat (- -1))%nat with 3%nat in Hget, Hreturned, Htool, Hmore.
  exists location, departures, (take 3 departures).
  split; [done|]. split; [exact Hget|]. split; [exact Hreturned|].
  split; [by rewrite Htool, Hreturned|].
  rewrite Hreturned. lia.
Defined.

(** ** Mapping a raw board entry *)

Lemma mapM_Raise {A B} (f : A → result B) (l : list A) (x : A) (e : exn) :
  x ∈ l → f x = Raise e → ∃ e', mapM f l = Raise e'.
Proof.
  intros Hin Hx. induction l as [|y l IH]; [by apply elem_of_nil in Hin|].
  apply elem_of_cons in Hin as [<-|Hin].
  - exists e. cbn. by rewrite Hx.
  - destruct (IH Hin) as [e' He']. cbn.
    destruct (f y) as [b|ey]; [|by eauto].
    exists e'. cbn. fold (mapM f l). by rewrite He'.
Qed.

Section MappingProperties.
Context `{PyRuntime}.
Import DepartureService.

(** The parser fails with a ValueError only. *)
Lemma parse_bahn_datetime_raises (s : string) (e : exn) :
  parse_bahn_datetime s = Raise e → ∃ m, e = ValueError m.
Proof.
  unfold parse_bahn_datetime.
  destruct (_ || _); [intros [= <-]; eauto|].
  destruct (has_offset_marker _); destruct (fromisoformat _); cbn;
    intros [= <-]; eauto.
Qed.

Lemma parse_rt_empty : parse_rt "" = Ok None.
Proof. reflexivity. Qed.

Lemma parse_rt_unparsable (ez : string) (e : exn) :
  parse_bahn_datetime ez = Raise e → parse_rt ez = Ok None.
Proof.
  intros Hp. unfold parse_rt. destruct (decide (ez = "")); [done|].
  destruct (parse_bahn_datetime_raises _ _ Hp) as [m ->]. by rewrite Hp.
Qed.

(** An entry without real-time value: no real-time departure, no delay,
    the scheduled departure is the effective one. *)
Lemma map_departure_no_rt (raw : raw_entry) (sched : datetime) :
  parse_bahn_datetime (get_or (re_zeit raw) "") = Ok sched →
  parse_rt (get_or (re_ezZeit raw) "") = Ok None →
  ∃ d, _map_departure raw = Ok d
       ∧ Departure.rt_departure d = None
       ∧ Departure.delay_minutes d = 0
       ∧ Departure.effective_departure d = sched
       ∧ Departure.scheduled_departure d = sched.
Proof.
  intros Hsched Hrt. unfold _map_departure. rewrite Hsched, Hrt. cbn.
  eexists. split; [reflexivity|]. done.
Qed.

End MappingProperties.


(** ** Station numbers *)

Lemma digit_of_nonneg (c : ascii) (d : Z) : digit_of c = Some d → 0 ≤ d.
Proof.
  unfold digit_of. destruct (_ && _) eqn:Hrange; [|done].
  intros [= <-]. apply andb_true_iff in Hrange as [Hlo _].
  apply N.leb_le in Hlo. lia.
Qed.

Lemma int_digits_nonneg (s : string) (acc : Z) (after_digit : bool) (z : Z) :
  0 ≤ acc → int_digits acc after_digit s = Some z → 0 ≤ z.
Proof.
  revert acc after_digit. induction s as [|c s IH]; intros acc after_digit Hacc; cbn.
  - destruct after_digit; [by intros [= <-] | done].
  - destruct (digit_of c) as [d|] eqn:Hd.
    + apply IH. apply digit_of_nonneg in Hd. lia.
    + destruct (_ && _); [by apply IH | done].
Qed.

(** A string that does not start with a minus sign reads as no negative
    number. *)
Lemma int_of_str_nonneg (s : string) (z : Z) :
  str_prefix "-" (strip s) = false → int_of_str s = Some z → 0 ≤ z.
Proof.
  unfold int_of_str. destruct (strip s) as [|c s']; [done|]. cbn [str_prefix].
  destruct (decide ("-"%char = c)) as [<-|Hminus]; [done|]. intros _.
  rewrite decide_False by done.
  destruct (decide (c = "+"%char)); by apply int_digits_nonneg.
Qed.

Section LocationProperties.
Context `{PyRuntime}.
Import DepartureService.

Lemma py_int_nonneg (v : json) (z : Z) :
  json_nonneg v = true → py_int v = Ok z → 0 ≤ z.
Proof.
  destruct v as [|b|n|q|s|l|d]; cbn; try done.
  - intros _ [= <-]. by destruct b.
  - intros Hn [= <-]. by apply bool_decide_eq_true in Hn.
  - intros Hq [= <-]. unfold Qle_bool in Hq. cbn in Hq.
    apply Z.leb_le in Hq. apply Z.quot_pos; lia.
  - intros Hs. destruct (int_of_str s) as [n|] eqn:Hn; [|done].
    intros [= <-]. apply negb_true_iff in Hs. by eapply int_of_str_nonneg.
Qed.

Lemma map_location_eva (raw : raw_location) (loc : Location.t) :
  _map_location raw = Ok loc → py_int (eva_source raw) = Ok (Location.eva loc).
Proof.
  unfold _map_location. fold (eva_source raw).
  destruct (py_int (eva_source raw)) as [eva|]; cbn; [|done].
  destruct (py_float (get_or (rl_lat raw) (JFloat 0))) as [lat|]; cbn; [|done].
  destruct (py_float (get_or (rl_lon raw) (JFloat 0))) as [lon|]; cbn; [|done].
  by intros [= <-].
Qed.

(** What [resolve_station] returns is the image of one of the search
    results. *)
Lemma resolve_station_source (client : Client) (name : string) (loc : Location.t) :
  resolve_station client name = Ok loc →
  ∃ results raw, search_stations client name 10 = Ok results
                 ∧ raw ∈ results ∧ _map_location raw = Ok loc.
Proof.
  unfold resolve_station.
  destruct (search_stations client name 10) as [results|]; [|done]. cbn.
  destruct results as [|first rest]; [done|].
  destruct (find _ _) as [raw|] eqn:Hfind; intros Hmap.
  - exists (first :: rest), raw. split; [done|]. split; [|done].
    apply list_elem_of_In. by apply find_some in Hfind as [Hin _].
  - exists (first :: rest), first. split; [done|]. split; [by left | done].
Qed.

(** C7 (as the code has it).  The station number of every Location
    produced by station resolution is the integer conversion of the "eva
    number" field of one of the search results, or of its "ext id" field
    when the former is absent, or 0 when both are; it is not negative
    whenever that value is a number at or above zero, a boolean, or a
    string without a leading minus sign. *)
Theorem resolve_station_eva (client : Client) (name : string) (loc : Location.t) :
  resolve_station client name = Ok loc →
  ∃ results raw,
    search_stations client name 10 = Ok results
    ∧ raw ∈ results
    ∧ _map_location raw = Ok loc
    ∧ py_int (eva_source raw) = Ok (Location.eva loc)
    ∧ (rl_evaNumber raw = None → rl_extId raw = None → Location.eva loc = 0)
    ∧ (json_nonneg (eva_source raw) = true → 0 ≤ Location.eva loc).
Proof.
  intros Hresolve.
  destruct (resolve_station_source client name loc Hresolve)
    as (results & raw & Hsearch & Hin & Hmap).
  pose proof (map_location_eva raw loc Hmap) as Heva.
  exists results, raw. repeat split; try done.
  - intros Hnone1 Hnone2. unfold eva_source in Heva.
    rewrite Hnone1, Hnone2 in Heva. cbn in Heva. by injection Heva.
  - intros Hnonneg. by eapply py_int_nonneg.
Qed.
End LocationProperties.

Lemma resolve_station_eva_witness :
  let client := Sample.client [Sample.ext_only_station_raw] [] in
  ∃ loc, DepartureService.resolve_station (H := Reference.runtime) client "Frankfurt" = Ok loc
         ∧ json_nonneg (eva_source Sample.ext_only_station_raw) = true
         ∧ Location.eva loc = 8000105
         ∧ 0 ≤ Location.eva loc.
Proof.
  intros client.
  destruct (DepartureService.resolve_station (H := Reference.runtime) client "Frankfurt")
    as [loc|e] eqn:Hresolve; [|by vm_compute in Hresolve].
  destruct (resolve_station_eva (H := Reference.runtime) client "Frankfurt" loc Hresolve)
    as (results & raw & Hsearch & Hin & Hmap & Heva & _ & Hnonneg).
  injection Hsearch as <-.
  apply list_elem_of_singleton in Hin as ->.
  exists loc. split; [done|]. split; [reflexivity|].
  split; [|by apply Hnonneg].
  vm_compute in Heva. by injection Heva.
Defined.

(** C7 as the specification words it fails: a search result whose station
    number is -1 resolves to a Location whose [eva] is -1. *)
Lemma resolve_station_negative_eva :
  let client := Sample.client [Sample.negative_station_raw] [] in
  ∃ loc, DepartureService.resolve_station (H := Reference.runtime) client "Nowhere" = Ok loc
         ∧ Location.eva loc = -1
         ∧ ¬ 0 ≤ Location.eva loc.
Proof.
  intros client. eexists. split; [vm_compute; reflexivity|]. cbn. split; [done | lia].
Qed.

(** ** Timestamp parser *)

Section ParseProperties.
Context `{PyRuntime}.

Lemma parse_blank (s : string) :
  strip s = "" → parse_bahn_datetime s = Raise (ValueError "Empty datetime string").
Proof.
  intros Hs. unfold parse_bahn_datetime.
  by rewrite (bool_decide_eq_true_2 (strip s = "")), orb_true_r.
Qed.

Lemma parse_not_blank (s : string) :
  strip s ≠ "" →
  parse_bahn_datetime s
  = match (if has_offset_marker (strip s)
           then astimezone_berlin <$> fromisoformat (strip s) else None) with
    | Some dt => Ok dt
    | None =>
        match fromisoformat (strip s) with
        | Some dt_naive => Ok (replace_tzinfo_berlin dt_naive)
        | None => Raise (ValueError ("Cannot parse datetime string: " ++ str_repr (strip s)))
        end
    end.
Proof.
  intros Hs. unfold parse_bahn_datetime.
  rewrite (bool_decide_eq_false_2 (strip s = "")) by done.
  rewrite bool_decide_eq_false_2; [done|]. by intros ->.
Qed.

(** Without the offset marker a string that [fromisoformat] reads keeps
    its wall clock and is tagged with the Berlin zone. *)
Lemma parse_without_marker (s : string) (dt : datetime) :
  strip s ≠ "" → has_offset_marker (strip s) = false →
  fromisoformat (strip s) = Some dt →
  parse_bahn_datetime s = Ok (replace_tzinfo_berlin dt).
Proof. intros Hs Hm Hdt. rewrite parse_not_blank by done. by rewrite Hm, Hdt. Qed.

(** With the offset marker a string that [fromisoformat] reads is
    converted with [astimezone]. *)
Lemma parse_with_marker (s : string) (dt : datetime) :
  strip s ≠ "" → has_offset_marker (strip s) = true →
  fromisoformat (strip s) = Some dt →
  parse_bahn_datetime s = Ok (astimezone_berlin dt).
Proof. intros Hs Hm Hdt. rewrite parse_not_blank by done. by rewrite Hm, Hdt. Qed.

(** A string that [fromisoformat] rejects falls through the first attempt
    and fails in the second. *)
Lemma parse_unreadable (s : string) :
  strip s ≠ "" → fromisoformat (strip s) = None →
  parse_bahn_datetime s
  = Raise (ValueError ("Cannot parse datetime string: " ++ str_repr (strip s))).
Proof.
  intros Hs Hdt. rewrite parse_not_blank by done. rewrite Hdt.
  by destruct (has_offset_marker _).
Qed.

(** The parser fails exactly on a blank string and on a string that
    [fromisoformat] rejects. *)
Lemma parse_fails_iff (s : string) :
  is_Ok (parse_bahn_datetime s) = false
  ↔ strip s = "" ∨ fromisoformat (strip s) = None.
Proof.
  destruct (decide (strip s = "")) as [Hs|Hs].
  - rewrite parse_blank by done. cbn. split; auto.
  - destruct (fromisoformat (strip s)) as [dt|] eqn:Hdt.
    + destruct (has_offset_marker (strip s)) eqn:Hm.
      * rewrite (parse_with_marker s dt) by done. cbn. split; [done | by intros [|]].
      * rewrite (parse_without_marker s dt) by done. cbn. split; [done | by intros [|]].
    + rewrite parse_unreadable by done. cbn. split; auto.
Qed.

(** An offset-qualified string under the marker is converted to the
    Berlin wall clock of the instant it names. *)
Lemma parse_offset_qualified (s : string) (dt : datetime) (o : Z) :
  strip s ≠ "" → has_offset_marker (strip s) = true →
  fromisoformat (strip s) = Some dt → tz dt = Some (timezone o) →
  parse_bahn_datetime s
  = Ok {| wall := berlin_fromutc (wall dt - o); tz := Some BERLIN_TZ |}.
Proof.
  intros Hs Hm Hdt Hz. rewrite (parse_with_marker s dt) by done.
  unfold astimezone_berlin, utc_instant. by rewrite Hz.
Qed.

(** A naive string under the marker is taken to be in the system's local
    zone, not in the Berlin zone. *)
Lemma parse_naive_with_marker (s : string) (dt : datetime) :
  strip s ≠ "" → has_offset_marker (strip s) = true →
  fromisoformat (strip s) = Some dt → tz dt = None →
  parse_bahn_datetime s
  = Ok {| wall := berlin_fromutc (wall dt - local_utcoffset (wall dt));
          tz := Some BERLIN_TZ |}.
Proof.
  intros Hs Hm Hdt Hz. rewrite (parse_with_marker s dt) by done.
  unfold astimezone_berlin, utc_instant. by rewrite Hz.
Qed.
End ParseProperties.

(** The parser on the strings of the test suite. *)
Example parse_bahn_datetime_examples :
  let berlin h m := {| wall := Reference.wall_of 2026 2 24 h m 0 0; tz := Some BERLIN_TZ |} in
  parse_bahn_datetime (H := Reference.runtime) "2026-02-24T14:30:00" = Ok (berlin 14 30)
  ∧ parse_bahn_datetime (H := Reference.runtime) "2026-02-24T14:30:00+01:00" = Ok (berlin 14 30)
  ∧ parse_bahn_datetime (H := Reference.runtime) "2026-02-24T08:30:00-05:00" = Ok (berlin 14 30)
  ∧ parse_bahn_datetime (H := Reference.runtime) "2026-07-15T14:30:00+02:00"
    = Ok {| wall := Reference.wall_of 2026 7 15 14 30 0 0; tz := Some BERLIN_TZ |}
  ∧ parse_bahn_datetime (H := Reference.runtime) "" = Raise (ValueError "Empty datetime string")
  ∧ parse_bahn_datetime (H := Reference.runtime) "not-a-date"
    = Raise (ValueError "Cannot parse datetime string: 'not-a-date'").
Proof. vm_compute. repeat split; reflexivity. Qed.

(** C4.  The parser at a naive string that passes the offset test: the
    date and the time separated by a plus sign, or by a third hyphen.
    [fromisoformat] reads it as the naive 14:30; the parser returns 15:30
    in the Berlin zone where the system's local zone is UTC, and not the
    wall clock 14:30 tagged with the Berlin zone, which it returns for the
    same date and time separated by a T. *)
Theorem parse_naive_string_through_offset_branch :
  let naive := {| wall := Reference.wall_of 2026 2 24 14 30 0 0; tz := None |} in
  let berlin h m := {| wall := Reference.wall_of 2026 2 24 h m 0 0; tz := Some BERLIN_TZ |} in
  fromisoformat (PyRuntime := Reference.runtime) "2026-02-24+14:30:00" = Some naive
  ∧ fromisoformat (PyRuntime := Reference.runtime) "2026-02-24-14:30:00" = Some naive
  ∧ has_offset_marker "2026-02-24+14:30:00" = true
  ∧ has_offset_marker "2026-02-24-14:30:00" = true
  ∧ replace_tzinfo_berlin naive = berlin 14 30
  ∧ parse_bahn_datetime (H := Reference.runtime) "2026-02-24+14:30:00" = Ok (berlin 15 30)
  ∧ parse_bahn_datetime (H := Reference.runtime) "2026-02-24-14:30:00" = Ok (berlin 15 30)
  ∧ parse_bahn_datetime (H := Reference.runtime) "2026-02-24T14:30:00" = Ok (berlin 14 30)
  ∧ berlin 15 30 ≠ berlin 14 30.
Proof. vm_compute. repeat split; try reflexivity. discriminate. Qed.

(* ===================================================================== *)
(** * Further properties of the code *)
(* ===================================================================== *)

(** ** Parser and mapping: zones, totality, invariants *)

Section MappingInvariants.
Context `{PyRuntime}.
Import DepartureService.

Lemma astimezone_berlin_tz (dt : datetime) :
  tz (astimezone_berlin dt) = Some BERLIN_TZ.
Proof. unfold astimezone_berlin. by destruct (tz dt) as [[|o]|] eqn:Hz. Qed.

Lemma parse_ok_berlin (s : string) (dt : datetime) :
  parse_bahn_datetime s = Ok dt → tz dt = Some BERLIN_TZ.
Proof.
  unfold parse_bahn_datetime.
  destruct (_ || _); [done|].
  destruct (has_offset_marker _); destruct (fromisoformat _) as [d|]; cbn;
    intros [= <-]; try done.
  apply astimezone_berlin_tz.
Qed.


(** The real-time field never fails the mapping: it is read as a Berlin
    datetime or as no value. *)
Lemma parse_rt_cases (ez : string) :
  parse_rt ez = Ok None
  ∨ ∃ r, parse_rt ez = Ok (Some r) ∧ tz r = Some BERLIN_TZ.
Proof.
  unfold parse_rt. destruct (decide (ez = "")); [by left|].
  destruct (parse_bahn_datetime ez) as [r|e] eqn:Hp.
  - right. exists r. split; [done|]. by eapply parse_ok_berlin.
  - left. by destruct (parse_bahn_datetime_raises _ _ Hp) as [m ->].
Qed.

(** The delay of two datetimes of the Berlin zone is always computed. *)
Lemma delay_minutes_berlin_zone (sched : datetime) (rt : option datetime) :
  tz sched = Some BERLIN_TZ →
  (∀ r, rt = Some r → tz r = Some BERLIN_TZ) →
  delay_minutes sched rt
  = Ok (match rt with
        | Some r => Z.max 0 ((wall r - wall sched) `div` US_PER_MINUTE)
        | None => 0
        end).
Proof.
  intros Hs Hr. destruct rt as [r|]; [|done].
  specialize (Hr r eq_refl). unfold delay_minutes, dt_sub. rewrite Hs, Hr. cbn.
  by rewrite trunc_clamp_is_floor_clamp.
Qed.

(** What the mapping returns, given the two parsed time fields. *)
Lemma map_departure_unfold (raw : raw_entry) (sched : datetime)
    (rt : option datetime) :
  parse_bahn_datetime (get_or (re_zeit raw) "") = Ok sched →
  parse_rt (get_or (re_ezZeit raw) "") = Ok rt →
  (∀ r, rt = Some r → tz r = Some BERLIN_TZ) →
  ∃ d, _map_departure raw = Ok d
       ∧ Departure.scheduled_departure d = sched
       ∧ Departure.rt_departure d = rt
       ∧ Departure.effective_departure d = default sched rt
       ∧ Departure.delay_minutes d
         = match rt with
           | Some r => Z.max 0 ((wall r - wall sched) `div` US_PER_MINUTE)
           | None => 0
           end
       ∧ Departure.is_cancelled d = is_cancelled (get_or (re_meldungen raw) [])
       ∧ Departure.messages d
         = (λ m, mk_Message (get_or (m_type m) "") (get_or (m_text m) ""))
             <$> get_or (re_meldungen raw) [].
Proof.
  intros Hsched Hrt Hz. unfold _map_departure. rewrite Hsched, Hrt. cbn.
  rewrite (delay_minutes_berlin_zone sched rt); [|by eapply parse_ok_berlin|done].
  cbn. eexists. split; [reflexivity|]. cbn. by destruct rt.
Qed.


Lemma is_cancelled_messages (meldungen : list raw_message) :
  is_cancelled meldungen = true
  ↔ ∃ m, m ∈ ((λ m, mk_Message (get_or (m_type m) "") (get_or (m_text m) ""))
                <$> meldungen)
         ∧ msg_type m = "HALT_AUSFALL".
Proof.
  unfold is_cancelled. rewrite existsb_exists. split.
  - intros (m & Hin & Hm). apply bool_decide_eq_true in Hm.
    eexists. split.
    + apply list_elem_of_fmap. exists m. split; [reflexivity|].
      by apply list_elem_of_In.
    + cbn. by rewrite Hm.
  - intros (m' & Hin & Hm'). apply list_elem_of_fmap in Hin as (m & -> & Hin).
    exists m. split; [by apply list_elem_of_In|].
    apply bool_decide_eq_true.
    destruct (m_type m) as [ty|]; cbn in Hm'; [by subst | discriminate].
Qed.

End MappingInvariants.


(** ** Station resolution and the departure list *)

Lemma find_first {A} (P : A → bool) (pre post : list A) (x : A) :
  Forall (λ y, P y = false) pre → P x = true →
  find P (pre ++ x :: post) = Some x.
Proof.
  intros Hpre Hx. induction Hpre as [|y pre Hy _ IH]; cbn.
  - by rewrite Hx.
  - by rewrite Hy.
Qed.

Lemma find_none {A} (P : A → bool) (l : list A) :
  Forall (λ y, P y = false) l → find P l = None.
Proof.
  intros Hl. induction Hl as [|y l Hy _ IH]; cbn; [done|]. by rewrite Hy.
Qed.

Section ResolutionProperties.
Context `{PyRuntime}.
Import DepartureService.

(** X4.  Which search result [resolve_station] maps.  A failing search
    fails the resolution with the same exception; an empty result raises
    "Station not found" naming the query; otherwise the first result of
    type "ST" is mapped, wherever it stands in the list, and the very
    first result when no result has that type. *)
Theorem resolve_station_selection (client : Client) (name : string) :
  match search_stations client name 10 with
  | Raise e => resolve_station client name = Raise e
  | Ok [] =>
      resolve_station client name
      = Raise (StationNotFoundError ("Station not found: " ++ name))
  | Ok (first :: rest) =>
      (∀ pre st post,
         first :: rest = (pre ++ st :: post)%list →
         Forall (λ raw, rl_type raw ≠ Some "ST") pre →
         rl_type st = Some "ST" →
         resolve_station client name = _map_location st)
      ∧ (Forall (λ raw, rl_type raw ≠ Some "ST") (first :: rest) →
         resolve_station client name = _map_location first)
  end.
Proof.
  unfold resolve_station.
  destruct (search_stations client name 10) as [[|first rest]|e]; [done| |done].
  rewrite bind_Ok. split.
  - intros pre st post Heq Hpre Hst. rewrite Heq.
    rewrite (find_first _ pre post st).
    + by destruct pre.
    + eapply Forall_impl; [exact Hpre|]. intros raw Hraw.
      by apply bool_decide_eq_false.
    + by apply bool_decide_eq_true.
  - intros Hnone. rewrite find_none; [done|].
    eapply Forall_impl; [exact Hnone|]. intros raw Hraw.
    by apply bool_decide_eq_false.
Qed.

(** X5.  Whatever the destination filter and whatever [max_results],
    negative values included, the departures [get_departures] returns are
    departures of the mapped board, in the order of the board and each at
    most as often as it stands there; and under a filter that is not empty
    every one of them matches the filter. *)
Theorem get_departures_returns_board_sublist (client : Client) (utc_now : Z)
    (station_name : string) (dt : option datetime)
    (modes : option (list TransportMode)) (destination_filter : option string)
    (max_results : Z) (location : Location.t) (returned : list Departure.t) :
  get_departures client utc_now station_name dt modes destination_filter max_results
  = Ok (location, returned) →
  ∃ departures,
    mapped_departures client utc_now station_name dt modes = Ok (location, departures)
    ∧ returned `sublist_of` departures
    ∧ (∀ f, destination_filter = Some f → f ≠ "" →
       Forall (matches_filter f) returned).
Proof.
  rewrite get_departures_split.
  destruct (mapped_departures client utc_now station_name dt modes)
    as [[location' departures]|e]; cbn; [|done].
  intros [= -> <-]. exists departures. split; [done|].
  assert (∀ (l : list Departure.t), slice_to l max_results `sublist_of` l) as Hslice.
  { intros l. unfold slice_to. destruct (0 <=? max_results); apply sublist_take. }
  split.
  - etrans; [apply Hslice|].
    destruct destination_filter as [f|]; [|done].
    eapply keeps_sublist, apply_destination_filter_keeps.
  - intros f -> Hf. apply Forall_forall. intros d Hd.
    eapply elem_of_sublist in Hd; [|apply Hslice].
    by apply (keeps_elem_of _ _ _ d (apply_destination_filter_keeps f departures)) in Hd
      as [_ Hd].
Qed.
End ResolutionProperties.

Lemma resolve_station_selection_witness :
  let stop := {| rl_evaNumber := Some (JInt 1); rl_extId := None; rl_id := None;
                 rl_name := Some "Frankfurt, Hauptbahnhof"; rl_lat := None;
                 rl_lon := None; rl_type := Some "ADR"; rl_products := None |} in
  let client := Sample.client [stop; Sample.station_raw] [] in
  Forall (λ raw, rl_type raw ≠ Some "ST") [stop]
  ∧ rl_type Sample.station_raw = Some "ST"
  ∧ DepartureService.resolve_station (H := Reference.runtime) client "Frankfurt"
    = DepartureService._map_location (H := Reference.runtime) Sample.station_raw
  ∧ Location.eva <$> DepartureService.resolve_station (H := Reference.runtime) client "Frankfurt"
    = Ok 8000105.
Proof.
  intros stop client.
  assert (Forall (λ raw, rl_type raw ≠ Some "ST") [stop]) as Hpre.
  { constructor; [discriminate | constructor]. }
  split; [exact Hpre|]. split; [reflexivity|]. split; [|reflexivity].
  pose proof (resolve_station_selection (H := Reference.runtime) client "Frankfurt")
    as Hsel.
  cbn in Hsel. destruct Hsel as [Hfirst _].
  by apply (Hfirst [stop] Sample.station_raw []).
Defined.

Lemma get_departures_returns_board_sublist_witness :
  let client := Sample.client [Sample.station_raw] Sample.board4 in
  ∃ location returned departures,
    DepartureService.get_departures (H := Reference.runtime) client Sample.utc_now
      "Frankfurt" None None (Some "hbf") (-1) = Ok (location, returned)
    ∧ mapped_departures (H := Reference.runtime) client Sample.utc_now "Frankfurt"
        None None = Ok (location, departures)
    ∧ returned `sublist_of` departures
    ∧ Forall (matches_filter (H := Reference.runtime) "hbf") returned
    ∧ Departure.journey_id <$> returned = ["j1"; "j2"; "j3"].
Proof.
  intros client.
  destruct (DepartureService.get_departures (H := Reference.runtime) client
              Sample.utc_now "Frankfurt" None None (Some "hbf") (-1))
    as [[location returned]|e] eqn:Hget; [|by vm_compute in Hget].
  destruct (get_departures_returns_board_sublist (H := Reference.runtime) client
              Sample.utc_now "Frankfurt" None None (Some "hbf") (-1)
              location returned Hget) as (departures & Hmapped & Hsub & Hall).
  exists location, returned, departures.
  split; [done|]. split; [done|]. split; [done|].
  split; [by apply Hall|].
  vm_compute in Hget. injection Hget as _ <-. reflexivity.
Defined.

(** ** Cache eviction *)

Section EvictionProperties.
Import TTLCache.

Lemma expired_false_iff (now e : Q) : expired now e = false ↔ (now <= e)%Q.
Proof. unfold expired. rewrite negb_false_iff. apply Qle_bool_iff. Qed.

Lemma store_evict (c : t) (now : Q) (k : string) (v : json) (e : Q) :
  _store (_evict_expired c now) !! k = Some (v, e)
  ↔ _store c !! k = Some (v, e) ∧ (now <= e)%Q.
Proof.
  unfold _evict_expired. cbn. rewrite map_lookup_filter_Some. cbn.
  by rewrite expired_false_iff.
Qed.

(** X6.  [_evict_expired] keeps exactly the entries that have not expired,
    each with its value and its expiry, and leaves the default time to
    live alone; and no later look-up can tell whether it has run: at any
    time from the eviction on, [get] returns from the evicted cache what it
    returns from the cache as it was. *)
Theorem evict_expired_keeps_live_entries (c : t) (now : Q) :
  (∀ k v e, _store (_evict_expired c now) !! k = Some (v, e)
            ↔ _store c !! k = Some (v, e) ∧ (now <= e)%Q)
  ∧ _default_ttl (_evict_expired c now) = _default_ttl c
  ∧ (∀ k later, (now <= later)%Q →
       (get (_evict_expired c now) k later).1 = (get c k later).1).
Proof.
  split; [intros k v e; apply store_evict|]. split; [done|].
  intros k later Hlater. unfold get.
  destruct (_store c !! k) as [[v e]|] eqn:Hk.
  - destruct (Qlt_le_dec e now) as [Hdead|Hlive].
    + assert (_store (_evict_expired c now) !! k = None) as ->.
      { destruct (_store (_evict_expired c now) !! k) as [[v' e']|] eqn:Hk'; [|done].
        apply store_evict in Hk' as [Hk' Hle]. rewrite Hk in Hk'.
        injection Hk' as <- <-. by apply Qlt_not_le in Hdead. }
      rewrite expired_true; [done|]. by eapply Qlt_le_trans.
    + assert (_store (_evict_expired c now) !! k = Some (v, e)) as ->
        by by apply store_evict.
      by destruct (expired later e).
  - assert (_store (_evict_expired c now) !! k = None) as ->; [|done].
    destruct (_store (_evict_expired c now) !! k) as [[v' e']|] eqn:Hk'; [|done].
    apply store_evict in Hk' as [Hk' _]. by rewrite Hk in Hk'.
Qed.

Lemma get_store_subseteq (c : t) (key : string) (now : Q) :
  _store (get c key now).2 ⊆ _store c.
Proof.
  unfold get. destruct (_store c !! key) as [[v e]|]; [|done].
  destruct (expired now e); [|done]. cbn. apply delete_subseteq.
Qed.

Lemma get_default_ttl (c : t) (key : string) (now : Q) :
  _default_ttl (get c key now).2 = _default_ttl c.
Proof.
  unfold get. destruct (_store c !! key) as [[v e]|]; [|done].
  by destruct (expired now e).
Qed.

(** Whatever a look-up returns from a cache holding a null under the key,
    it is a null. *)
Lemma get_stored_null (c : t) (key : string) (e now : Q) :
  _store c !! key = Some (JNull, e) → (get c key now).1 = JNull.
Proof. intros Hk. unfold get. rewrite Hk. by destruct (expired now e). Qed.
End EvictionProperties.

Lemma evict_expired_keeps_live_entries_witness :
  let c := TTLCache.set (TTLCache.set Sample.empty_cache "old" (JInt 1) (Some 10) 0)
             "new" (JInt 2) (Some 100) 0 in
  (50 <= 60)%Q
  ∧ (TTLCache.get (TTLCache._evict_expired c 50) "new" 60).1 = (TTLCache.get c "new" 60).1
  ∧ TTLCache._store (TTLCache._evict_expired c 50) !! "old" = None
  ∧ (TTLCache.get (TTLCache._evict_expired c 50) "new" 60).1 = JInt 2.
Proof.
  intros c.
  assert (50 <= 60)%Q as Hle by (by apply Qle_bool_iff).
  split; [exact Hle|]. split; [|split; reflexivity].
  destruct (evict_expired_keeps_live_entries c 50) as (_ & _ & Hget).
  by apply Hget.
Defined.

(** ** The gateway and its cache *)

Section GatewayCacheProperties.
Import BahnClient.

(** A live entry that is not null is returned; no request is made and
    nothing is written. *)
Lemma get_hit (cache : TTLCache.t) (url : string)
    (params : list (string * param)) (ttl : option Z) (t_get t_set : Q)
    (http : result Response) (data : json) (e : Q) :
  TTLCache._store cache !! get_cache_key url params = Some (data, e) →
  data ≠ JNull → (t_get <= e)%Q →
  _get cache url params ttl t_get t_set http = (Ok data, cache).
Proof.
  intros Hk Hdata Hlive. unfold _get. fold (get_cache_key url params).
  rewrite (get_live _ _ data e) by done. by destruct data.
Qed.

Lemma get_miss (cache : TTLCache.t) (url : string)
    (params : list (string * param)) (ttl : option Z) (t_get t_set : Q)
    (http : result Response) :
  cache_miss cache (get_cache_key url params) t_get →
  _get cache url params ttl t_get t_set http
  = match fetch http with
    | Ok data =>
        (Ok data,
         TTLCache.set (TTLCache.get cache (get_cache_key url params) t_get).2
           (get_cache_key url params) data ttl t_set)
    | Raise e => (Raise e, (TTLCache.get cache (get_cache_key url params) t_get).2)
    end.
Proof.
  unfold cache_miss, _get. fold (get_cache_key url params).
  destruct (TTLCache.get cache _ t_get) as [cached cache']. cbn. by intros ->.
Qed.

Lemma fetch_ok (r : Response) (data : json) :
  resp_status_code r < 400 → resp_json r = Ok data → fetch (Ok r) = Ok data.
Proof.
  intros Hs Hb. unfold fetch. cbn. by rewrite raise_for_status_lt_400.
Qed.

(** X7.  After a call that found nothing to serve, got a response below
    400 and decoded a body other than null, every further call for the
    same URL and parameters, up to the expiry of the entry, returns that
    body whatever the upstream would answer (also where it would fail),
    and leaves the cache as it is. *)
Theorem get_second_call_served_from_cache (cache : TTLCache.t) (url : string)
    (params : list (string * param)) (ttl : option Z) (t1 t2 t3 t4 : Q)
    (r : Response) (data : json) :
  cache_miss cache (get_cache_key url params) t1 →
  resp_status_code r < 400 → resp_json r = Ok data → data ≠ JNull →
  (t3 <= t2 + inject_Z (effective_ttl cache ttl))%Q →
  let first := _get cache url params ttl t1 t2 (Ok r) in
  first.1 = Ok data
  ∧ ∀ http, _get first.2 url params ttl t3 t4 http = (Ok data, first.2).
Proof.
  intros Hmiss Hs Hb Hdata Hlive first. unfold first.
  rewrite get_miss by done. rewrite (fetch_ok r data) by done. cbn.
  split; [done|]. intros http.
  eapply get_hit; [apply store_set | done |].
  unfold effective_ttl in *. by rewrite get_default_ttl.
Qed.

(** X8.  A body that decodes to null is written to the cache like any
    other, but is never served from it: every later call for the same URL
    and parameters, at whatever time, makes the request again. *)
Theorem get_null_body_cached_but_never_served (cache : TTLCache.t) (url : string)
    (params : list (string * param)) (ttl : option Z) (t1 t2 t3 t4 : Q)
    (r : Response) :
  cache_miss cache (get_cache_key url params) t1 →
  resp_status_code r < 400 → resp_json r = Ok JNull →
  let first := _get cache url params ttl t1 t2 (Ok r) in
  first.1 = Ok JNull
  ∧ TTLCache._store first.2 !! get_cache_key url params
    = Some (JNull, (t2 + inject_Z (effective_ttl cache ttl))%Q)
  ∧ ∀ http, (_get first.2 url params ttl t3 t4 http).1 = fetch http.
Proof.
  intros Hmiss Hs Hb first. unfold first.
  rewrite get_miss by done. rewrite (fetch_ok r JNull) by done. cbn.
  assert (TTLCache._store
            (TTLCache.set (TTLCache.get cache (get_cache_key url params) t1).2
               (get_cache_key url params) JNull ttl t2) !! get_cache_key url params
          = Some (JNull, (t2 + inject_Z (effective_ttl cache ttl))%Q)) as Hstored.
  { rewrite store_set. unfold effective_ttl. by rewrite get_default_ttl. }
  split; [done|]. split; [done|]. intros http.
  rewrite get_miss by (by eapply get_stored_null).
  by destruct (fetch http).
Qed.

(** X9.  A call that raises has written nothing: the exception is that of
    the request, of the status check or of the decoder, the cache is as
    the look-up left it, and every entry it holds was there before. *)
Theorem get_failure_writes_nothing (cache : TTLCache.t) (url : string)
    (params : list (string * param)) (ttl : option Z) (t_get t_set : Q)
    (http : result Response) (e : exn) :
  (_get cache url params ttl t_get t_set http).1 = Raise e →
  fetch http = Raise e
  ∧ (_get cache url params ttl t_get t_set http).2
    = (TTLCache.get cache (get_cache_key url params) t_get).2
  ∧ TTLCache._store (_get cache url params ttl t_get t_set http).2
    ⊆ TTLCache._store cache.
Proof.
  intros Hraise.
  assert (fetch http = Raise e
          ∧ (_get cache url params ttl t_get t_set http).2
            = (TTLCache.get cache (get_cache_key url params) t_get).2) as [Hf Hc].
  { revert Hraise. unfold _get. fold (get_cache_key url params).
    destruct (TTLCache.get cache _ t_get) as [cached cache'].
    destruct cached; cbn; try discriminate.
    destruct (fetch http) as [data|e']; cbn; [discriminate|].
    by intros [= ->]. }
  split; [done|]. split; [done|]. rewrite Hc. apply get_store_subseteq.
Qed.

(** X10.  From the gateway to the tool: for a response from 400 on, the
    exception the gateway raises is turned by the tool boundary into a
    message that depends on the status code alone.  The URL, which the
    gateway puts into the message of its 404 failure, is never shown, and
    nothing is logged. *)
Theorem upstream_failure_message_by_status (r : Response) :
  400 ≤ resp_status_code r →
  ∃ e, fetch (Ok r) = Raise e
       ∧ Tools._handle_exception e
         = (error_resource (upstream_error_message (resp_status_code r)), []).
Proof.
  intros Hs. unfold fetch, upstream_error_message. cbn.
  destruct (decide (resp_status_code r = 404)) as [H404|Hne].
  - rewrite raise_for_status_404 by done. eexists. split; [reflexivity|].
    by rewrite H404.
  - rewrite raise_for_status_ge_400 by done. eexists. split; [reflexivity|].
    cbn. by repeat case_bool_decide.
Qed.
End GatewayCacheProperties.

Lemma get_second_call_served_from_cache_witness :
  let url := BASE_URL ++ "/reiseloesung/fahrt" in
  let params := [("journeyId", PStr "j1"); ("poly", PStr "false")] in
  let r := {| resp_status_code := 200; resp_url := url; resp_json := Ok (JDict []) |} in
  let first := BahnClient._get Sample.empty_cache url params (Some TTL_JOURNEY) 0 1 (Ok r) in
  cache_miss Sample.empty_cache (get_cache_key url params) 0
  ∧ (31 <= 1 + inject_Z (effective_ttl Sample.empty_cache (Some TTL_JOURNEY)))%Q
  ∧ first.1 = Ok (JDict [])
  ∧ BahnClient._get first.2 url params (Some TTL_JOURNEY) 31 32
      (Raise (TimeoutException "timed out"))
    = (Ok (JDict []), first.2).
Proof.
  intros url params r first.
  assert (cache_miss Sample.empty_cache (get_cache_key url params) 0) as Hmiss
    by reflexivity.
  assert (31 <= 1 + inject_Z (effective_ttl Sample.empty_cache (Some TTL_JOURNEY)))%Q
    as Hlive by (by apply Qle_bool_iff).
  split; [exact Hmiss|]. split; [exact Hlive|].
  destruct (get_second_call_served_from_cache Sample.empty_cache url params
              (Some TTL_JOURNEY) 0 1 31 32 r (JDict []))
    as [Hfirst Hsecond]; [exact Hmiss | by cbn; lia | reflexivity | discriminate
                         | exact Hlive |].
  split; [exact Hfirst|]. apply Hsecond.
Defined.

Lemma get_null_body_cached_but_never_served_witness :
  let url := BASE_URL ++ "/reiseloesung/fahrt" in
  let params := [("journeyId", PStr "j1"); ("poly", PStr "false")] in
  let r := {| resp_status_code := 200; resp_url := url; resp_json := Ok JNull |} in
  let r' := {| resp_status_code := 200; resp_url := url; resp_json := Ok (JInt 7) |} in
  let first := BahnClient._get Sample.empty_cache url params (Some TTL_JOURNEY) 0 1 (Ok r) in
  cache_miss Sample.empty_cache (get_cache_key url params) 0
  ∧ first.1 = Ok JNull
  ∧ (BahnClient._get first.2 url params (Some TTL_JOURNEY) 2 3 (Ok r')).1 = Ok (JInt 7).
Proof.
  intros url params r r' first.
  assert (cache_miss Sample.empty_cache (get_cache_key url params) 0) as Hmiss
    by reflexivity.
  split; [exact Hmiss|].
  destruct (get_null_body_cached_but_never_served Sample.empty_cache url params
              (Some TTL_JOURNEY) 0 1 2 3 r)
    as (Hfirst & _ & Hagain); [exact Hmiss | by cbn; lia | reflexivity |].
  split; [exact Hfirst|]. by rewrite Hagain.
Defined.

Lemma get_failure_writes_nothing_witness :
  let url := BASE_URL ++ "/reiseloesung/fahrt" in
  let params := [("journeyId", PStr "j1"); ("poly", PStr "false")] in
  let cache := TTLCache.set Sample.empty_cache "other" (JInt 1) None 0 in
  let http : result Response := Raise (TimeoutException "timed out") in
  (BahnClient._get cache url params None 1 2 http).1 = Raise (TimeoutException "timed out")
  ∧ (BahnClient._get cache url params None 1 2 http).2 = cache
  ∧ TTLCache._store (BahnClient._get cache url params None 1 2 http).2
    ⊆ TTLCache._store cache.
Proof.
  intros url params cache http.
  assert ((BahnClient._get cache url params None 1 2 http).1
          = Raise (TimeoutException "timed out")) as Hraise by reflexivity.
  destruct (get_failure_writes_nothing cache url params None 1 2 http _ Hraise)
    as (_ & Hsame & Hsub).
  split; [exact Hraise|]. split; [|exact Hsub].
  rewrite Hsame. reflexivity.
Defined.

Lemma upstream_failure_message_by_status_witness :
  let r := {| resp_status_code := 404;
              resp_url := "https://www.bahn.de/web/api/reiseloesung/fahrt?journeyId=x";
              resp_json := Ok JNull |} in
  400 ≤ resp_status_code r
  ∧ ∃ e, BahnClient.fetch (Ok r) = Raise e
         ∧ exn_str e
           = "Resource not found (404): https://www.bahn.de/web/api/reiseloesung/fahrt?journeyId=x"
         ∧ Tools._handle_exception e = (error_resource "Resource not found.", []).
Proof.
  intros r.
  assert (400 ≤ resp_status_code r) as Hs by (cbn; lia).
  split; [exact Hs|].
  destruct (upstream_failure_message_by_status r Hs) as (e & Hfetch & Hmsg).
  exists e. split; [exact Hfetch|]. split; [|exact Hmsg].
  vm_compute in Hfetch. injection Hfetch as <-. reflexivity.
Defined.

(** ** Cache keys and the order of parameters *)

(** In a list with distinct keys an item is determined by its key. *)
Lemma nodup_keys_item {A B} (l : list (A * B)) (x y : A * B) :
  NoDup l.*1 → x ∈ l → y ∈ l → x.1 = y.1 → x = y.
Proof.
  induction l as [|z l IH]; intros Hnd Hx Hy Hkey; [by apply elem_of_nil in Hx|].
  rewrite fmap_cons in Hnd. apply NoDup_cons in Hnd as [Hz Hnd].
  apply elem_of_cons in Hx as [->|Hx]; apply elem_of_cons in Hy as [->|Hy].
  - done.
  - destruct Hz. rewrite Hkey. by apply list_elem_of_fmap_2.
  - destruct Hz. rewrite <- Hkey. by apply list_elem_of_fmap_2.
  - by apply IH.
Qed.

(** X11.  The query string under which [_get] caches a request does not
    depend on the order in which the parameters were put into the dict:
    two lists of the same items, with distinct keys, give the same
    string. *)
Theorem query_of_order_independent (params1 params2 : list (string * param)) :
  NoDup params1.*1 → params1 ≡ₚ params2 →
  query_of params1 = query_of params2.
Proof.
  intros Hnd Hperm. unfold query_of. do 2 f_equal.
  apply (Sorted_unique_strong item_le).
  - intros x1 x2 Hx1 Hx2 H12 H21.
    apply (nodup_keys_item params1); [done|..].
    + by rewrite merge_sort_Permutation in Hx1.
    + rewrite merge_sort_Permutation in Hx2. by rewrite Hperm.
    + unfold item_le in *. by apply (anti_symm String.le).
  - apply Sorted_merge_sort; apply _.
  - apply Sorted_merge_sort; apply _.
  - by rewrite !merge_sort_Permutation.
Qed.

Lemma query_of_order_independent_witness :
  let params1 := [("suchbegriff", PStr "Frankfurt"); ("typ", PStr "ALL"); ("limit", PInt 10)] in
  let params2 := [("limit", PInt 10); ("suchbegriff", PStr "Frankfurt"); ("typ", PStr "ALL")] in
  NoDup params1.*1 ∧ params1 ≡ₚ params2
  ∧ query_of params1 = query_of params2
  ∧ query_of params2 = "limit=10&suchbegriff=Frankfurt&typ=ALL".
Proof.
  intros params1 params2.
  assert (NoDup params1.*1) as Hnd by (by apply (bool_decide_unpack _)).
  assert (params1 ≡ₚ params2) as Hperm.
  { unfold params1, params2.
    etrans; [apply Permutation_skip, Permutation_swap|]. apply Permutation_swap. }
  split; [exact Hnd|]. split; [exact Hperm|]. split; [|reflexivity].
  by apply query_of_order_independent.
Defined.

(** ** The departure board and its cache key *)

Section BoardCacheProperties.
Import BahnClient.

(** Two lists of valid mode codes with the same key are permutations of
    each other. *)
Lemma departures_cache_key_inj (eva : Z) (hafas_id datum zeit : string)
    (m1 m2 : list string) :
  Forall valid_mode m1 → Forall valid_mode m2 →
  departures_cache_key eva hafas_id datum zeit m1
  = departures_cache_key eva hafas_id datum zeit m2 →
  m1 ≡ₚ m2.
Proof.
  intros Hv1 Hv2 Hkey. rewrite !departures_cache_key_eq in Hkey.
  do 4 apply String.app_inj in Hkey.
  apply sorted_eq_Permutation, join_comma_inj; [..|done].
  - unfold sorted. rewrite merge_sort_Permutation.
    eapply Forall_impl; [exact Hv1 | apply valid_mode_comma_free].
  - unfold sorted. rewrite merge_sort_Permutation.
    eapply Forall_impl; [exact Hv2 | apply valid_mode_comma_free].
Qed.

Lemma departures_cache_key_perm (eva : Z) (hafas_id datum zeit : string)
    (m1 m2 : list string) :
  m1 ≡ₚ m2 →
  departures_cache_key eva hafas_id datum zeit m1
  = departures_cache_key eva hafas_id datum zeit m2.
Proof.
  intros Hp. rewrite !departures_cache_key_eq. by rewrite (sorted_Permutation m1 m2).
Qed.

Lemma get_departures_miss (cache : TTLCache.t) (eva : Z)
    (hafas_id datum zeit : string) (modes : list string) (t_get t_set : Q)
    (http : result Response) :
  cache_miss cache (departures_cache_key eva hafas_id datum zeit modes) t_get →
  get_departures cache eva hafas_id datum zeit modes t_get t_set http
  = match fetch http with
    | Ok data =>
        (Ok data,
         TTLCache.set
           (TTLCache.get cache (departures_cache_key eva hafas_id datum zeit modes) t_get).2
           (departures_cache_key eva hafas_id datum zeit modes) data
           (Some TTL_DEPARTURES) t_set)
    | Raise e =>
        (Raise e,
         (TTLCache.get cache (departures_cache_key eva hafas_id datum zeit modes) t_get).2)
    end.
Proof.
  unfold cache_miss, get_departures.
  destruct (TTLCache.get cache _ t_get) as [cached cache']. cbn. by intros ->.
Qed.

Lemma get_departures_hit (cache : TTLCache.t) (eva : Z)
    (hafas_id datum zeit : string) (modes : list string) (t_get t_set : Q)
    (http : result Response) (data : json) (e : Q) :
  TTLCache._store cache !! departures_cache_key eva hafas_id datum zeit modes
  = Some (data, e) →
  data ≠ JNull → (t_get <= e)%Q →
  get_departures cache eva hafas_id datum zeit modes t_get t_set http
  = (Ok data, cache).
Proof.
  intros Hk Hdata Hlive. unfold get_departures.
  rewrite (get_live _ _ data e) by done. by destruct data.
Qed.

(** X12.  The board of a station is cached by the set of modes asked for.
    After a call that fetched a board (a body other than null), a call
    for the same station and time within 90 seconds of the write is served
    from the cache when its modes are a permutation of the first call's,
    whatever the upstream would answer; when both lists hold valid mode
    codes and are no permutations of each other, and the cache held
    nothing under the second key, the second call makes its own
    request. *)
Theorem get_departures_cached_by_mode_set (cache : TTLCache.t) (eva : Z)
    (hafas_id datum zeit : string) (m1 m2 : list string) (t1 t2 t3 t4 : Q)
    (r : Response) (data : json) :
  cache_miss cache (departures_cache_key eva hafas_id datum zeit m1) t1 →
  resp_status_code r < 400 → resp_json r = Ok data → data ≠ JNull →
  (t3 <= t2 + inject_Z TTL_DEPARTURES)%Q →
  let first := get_departures cache eva hafas_id datum zeit m1 t1 t2 (Ok r) in
  first.1 = Ok data
  ∧ (m1 ≡ₚ m2 →
     ∀ http, get_departures first.2 eva hafas_id datum zeit m2 t3 t4 http
             = (Ok data, first.2))
  ∧ (Forall valid_mode m1 → Forall valid_mode m2 → ¬ m1 ≡ₚ m2 →
     TTLCache._store cache !! departures_cache_key eva hafas_id datum zeit m2 = None →
     ∀ http, (get_departures first.2 eva hafas_id datum zeit m2 t3 t4 http).1
             = fetch http).
Proof.
  intros Hmiss Hs Hb Hdata Hlive first. unfold first.
  rewrite get_departures_miss by done. rewrite (fetch_ok r data) by done.
  cbn [fst snd]. split; [done|]. split.
  - intros Hperm http.
    eapply get_departures_hit; [|done|].
    + rewrite <- (departures_cache_key_perm eva hafas_id datum zeit m1 m2 Hperm).
      apply store_set.
    + exact Hlive.
  - intros Hv1 Hv2 Hdiff Hnone http.
    rewrite get_departures_miss; [by destruct (fetch http)|].
    unfold cache_miss. rewrite get_absent; [done|].
    unfold TTLCache.set. cbn. rewrite lookup_insert_ne.
    + apply (lookup_weaken_None _ _ _ Hnone), get_store_subseteq.
    + intros Hkey. by apply Hdiff, (departures_cache_key_inj eva hafas_id datum zeit).
Qed.
End BoardCacheProperties.

Lemma get_departures_cached_by_mode_set_witness :
  let key := BahnClient.departures_cache_key 8000105 "A=1@O=Frankfurt" "2026-02-24" "14:00:00" in
  let r := {| resp_status_code := 200; resp_url := BahnClient.departures_url;
              resp_json := Ok (JDict [("entries", JList [])]) |} in
  let r' := {| resp_status_code := 200; resp_url := BahnClient.departures_url;
               resp_json := Ok (JDict []) |} in
  let first := BahnClient.get_departures Sample.empty_cache 8000105 "A=1@O=Frankfurt"
                 "2026-02-24" "14:00:00" ["REGIONAL"; "ICE"] 0 1 (Ok r) in
  cache_miss Sample.empty_cache (key ["REGIONAL"; "ICE"]) 0
  ∧ (91 <= 1 + inject_Z TTL_DEPARTURES)%Q
  ∧ ["REGIONAL"; "ICE"] ≡ₚ ["ICE"; "REGIONAL"]
  ∧ BahnClient.get_departures first.2 8000105 "A=1@O=Frankfurt" "2026-02-24" "14:00:00"
      ["ICE"; "REGIONAL"] 91 92 (Ok r')
    = (Ok (JDict [("entries", JList [])]), first.2).
Proof.
  intros key r r' first.
  assert (cache_miss Sample.empty_cache (key ["REGIONAL"; "ICE"]) 0) as Hmiss
    by reflexivity.
  assert (91 <= 1 + inject_Z TTL_DEPARTURES)%Q as Hlive by (by apply Qle_bool_iff).
  assert (["REGIONAL"; "ICE"] ≡ₚ ["ICE"; "REGIONAL"]) as Hperm
    by apply Permutation_swap.
  split; [exact Hmiss|]. split; [exact Hlive|]. split; [exact Hperm|].
  destruct (get_departures_cached_by_mode_set Sample.empty_cache 8000105
              "A=1@O=Frankfurt" "2026-02-24" "14:00:00" ["REGIONAL"; "ICE"]
              ["ICE"; "REGIONAL"] 0 1 91 92 r (JDict [("entries", JList [])]))
    as (_ & Hsame & _); [exact Hmiss | by cbn; lia | reflexivity | discriminate
                        | exact Hlive |].
  by apply Hsame.
Defined.

(** ** Station search *)

Section SearchProperties.
Import BahnClient.

Lemma dict_get_elem (key : string) (d : list (string * json)) (dflt v : json) :
  NoDup d.*1 → (key, v) ∈ d → dict_get key d dflt = v.
Proof.
  induction d as [|[k w] d IH]; intros Hnd Hin; [by apply elem_of_nil in Hin|].
  rewrite fmap_cons in Hnd. apply NoDup_cons in Hnd as [Hk Hnd]. cbn.
  apply elem_of_cons in Hin as [[= -> ->]|Hin].
  - by rewrite decide_True.
  - destruct (decide (k = key)) as [->|]; [|by apply IH].
    destruct Hk. by apply (list_elem_of_fmap_2 fst _ (key, v)).
Qed.

Lemma dict_get_absent (key : string) (d : list (string * json)) (dflt : json) :
  key ∉ d.*1 → dict_get key d dflt = dflt.
Proof.
  induction d as [|[k w] d IH]; intros Hk; [done|]. cbn.
  rewrite fmap_cons in Hk. apply not_elem_of_cons in Hk as [Hne Hk].
  rewrite decide_False by done. by apply IH.
Qed.

Lemma search_stations_miss (cache : TTLCache.t) (query : string) (limit : Z)
    (t_get t_set : Q) (r : Response) (data : json) :
  let params := [("suchbegriff", PStr query); ("typ", PStr "ALL"); ("limit", PInt limit)] in
  let key := get_cache_key (BASE_URL ++ "/reiseloesung/orte") params in
  cache_miss cache key t_get →
  resp_status_code r < 400 → resp_json r = Ok data →
  search_stations cache query limit t_get t_set (Ok r)
  = (stations_of data,
     TTLCache.set (TTLCache.get cache key t_get).2 key data (Some TTL_STATIONS) t_set).
Proof.
  intros params key Hmiss Hs Hb. unfold search_stations.
  fold params. rewrite get_miss by done. by rewrite (fetch_ok r data) by done.
Qed.

(** X13.  What [search_stations] makes of the decoded body of a fetched
    response.  A list is returned as it is.  Of an object, the value
    under "items" is returned when the key is there, also beside a key
    "orte"; without "items", the value under "orte"; without both, the
    empty list. *)
Theorem search_stations_result_shapes (cache : TTLCache.t) (query : string)
    (limit : Z) (t_get t_set : Q) (r : Response) (data : json) :
  cache_miss cache
    (get_cache_key (BASE_URL ++ "/reiseloesung/orte")
       [("suchbegriff", PStr query); ("typ", PStr "ALL"); ("limit", PInt limit)]) t_get →
  resp_status_code r < 400 → resp_json r = Ok data →
  let result := (search_stations cache query limit t_get t_set (Ok r)).1 in
  (∀ l, data = JList l → result = Ok (JList l))
  ∧ (∀ d, data = JDict d → NoDup d.*1 →
       (∀ v, ("items", v) ∈ d → result = Ok v)
       ∧ ("items" ∉ d.*1 → ∀ v, ("orte", v) ∈ d → result = Ok v)
       ∧ ("items" ∉ d.*1 → "orte" ∉ d.*1 → result = Ok (JList []))).
Proof.
  intros Hmiss Hs Hb result. unfold result.
  rewrite (search_stations_miss cache query limit t_get t_set r data) by done. cbn.
  split; [by intros l ->|].
  intros d -> Hnd. cbn. split; [|split].
  - intros v Hin. by rewrite (dict_get_elem "items" d _ v).
  - intros Hitems v Hin. rewrite dict_get_absent by done.
    by rewrite (dict_get_elem "orte" d _ v).
  - intros Hitems Horte. by rewrite !dict_get_absent.
Qed.

(** X14.  A fetched body that is neither a list nor an object nor null (a
    string, a number, a boolean) makes [search_stations] raise an
    AttributeError, after the body has been written to the cache: until
    the entry expires, 300 seconds after the write, every further search
    with the same query and limit raises the same exception, whatever the
    upstream would answer now. *)
Theorem search_stations_bad_body_is_cached (cache : TTLCache.t) (query : string)
    (limit : Z) (t1 t2 t3 t4 : Q) (r : Response) (data : json) :
  cache_miss cache
    (get_cache_key (BASE_URL ++ "/reiseloesung/orte")
       [("suchbegriff", PStr query); ("typ", PStr "ALL"); ("limit", PInt limit)]) t1 →
  resp_status_code r < 400 → resp_json r = Ok data →
  (∃ b, data = JBool b) ∨ (∃ z, data = JInt z) ∨ (∃ q, data = JFloat q)
  ∨ (∃ s, data = JStr s) →
  (t3 <= t2 + inject_Z TTL_STATIONS)%Q →
  let first := search_stations cache query limit t1 t2 (Ok r) in
  first.1 = Raise (OtherError "AttributeError"
                     ("'" ++ type_name data ++ "' object has no attribute 'get'"))
  ∧ ∀ http, (search_stations first.2 query limit t3 t4 http).1 = first.1.
Proof.
  intros Hmiss Hs Hb Hshape Hlive first. unfold first.
  rewrite (search_stations_miss cache query limit t1 t2 r data) by done. cbn.
  assert (data ≠ JNull) as Hdata.
  { by destruct Hshape as [(b & ->)|[(z & ->)|[(q & ->)|(s & ->)]]]. }
  split.
  - by destruct Hshape as [(b & ->)|[(z & ->)|[(q & ->)|(s & ->)]]].
  - intros http. unfold search_stations.
    erewrite get_hit; [done | apply store_set | done | done].
Qed.
End SearchProperties.

Lemma search_stations_result_shapes_witness :
  let params := [("suchbegriff", PStr "Frankfurt"); ("typ", PStr "ALL"); ("limit", PInt 10)] in
  let body := JDict [("orte", JList [JStr "a"]); ("items", JList [JStr "b"])] in
  let r := {| resp_status_code := 200; resp_url := BASE_URL ++ "/reiseloesung/orte";
              resp_json := Ok body |} in
  cache_miss Sample.empty_cache (get_cache_key (BASE_URL ++ "/reiseloesung/orte") params) 0
  ∧ (BahnClient.search_stations Sample.empty_cache "Frankfurt" 10 0 1 (Ok r)).1
    = Ok (JList [JStr "b"]).
Proof.
  intros params body r.
  assert (cache_miss Sample.empty_cache
            (get_cache_key (BASE_URL ++ "/reiseloesung/orte") params) 0) as Hmiss
    by reflexivity.
  split; [exact Hmiss|].
  destruct (search_stations_result_shapes Sample.empty_cache "Frankfurt" 10 0 1 r body)
    as [_ Hdict]; [exact Hmiss | by cbn; lia | reflexivity |].
  destruct (Hdict _ eq_refl) as (Hitems & _).
  - by apply (bool_decide_unpack _).
  - apply Hitems. apply elem_of_cons. right. apply elem_of_cons. by left.
Defined.

Lemma search_stations_bad_body_is_cached_witness :
  let params := [("suchbegriff", PStr "Frankfurt"); ("typ", PStr "ALL"); ("limit", PInt 10)] in
  let r := {| resp_status_code := 200; resp_url := BASE_URL ++ "/reiseloesung/orte";
              resp_json := Ok (JStr "maintenance") |} in
  let good := {| resp_status_code := 200; resp_url := BASE_URL ++ "/reiseloesung/orte";
                 resp_json := Ok (JList []) |} in
  let first := BahnClient.search_stations Sample.empty_cache "Frankfurt" 10 0 1 (Ok r) in
  cache_miss Sample.empty_cache (get_cache_key (BASE_URL ++ "/reiseloesung/orte") params) 0
  ∧ (300 <= 1 + inject_Z TTL_STATIONS)%Q
  ∧ first.1 = Raise (OtherError "AttributeError" "'str' object has no attribute 'get'")
  ∧ (BahnClient.search_stations first.2 "Frankfurt" 10 300 301 (Ok good)).1 = first.1.
Proof.
  intros params r good first.
  assert (cache_miss Sample.empty_cache
            (get_cache_key (BASE_URL ++ "/reiseloesung/orte") params) 0) as Hmiss
    by reflexivity.
  assert (300 <= 1 + inject_Z TTL_STATIONS)%Q as Hlive by (by apply Qle_bool_iff).
  split; [exact Hmiss|]. split; [exact Hlive|].
  destruct (search_stations_bad_body_is_cached Sample.empty_cache "Frankfurt" 10
              0 1 300 301 r (JStr "maintenance"))
    as [Hfirst Hagain]; [exact Hmiss | by cbn; lia | reflexivity
                        | right; right; right; by eexists | exact Hlive |].
  split; [exact Hfirst|]. apply Hagain.
Defined.

(** ** Request headers *)

Section HeadersProperties.
Import Headers.

Lemma user_agent_header (n : Z) (a b : string) :
  header_value "User-Agent" (make_headers n a b).1
  = Some (default "" (_USER_AGENTS !! Z.to_nat (n `mod` 3))).
Proof. reflexivity. Qed.

Lemma mod3_cases (n : Z) : n `mod` 3 = 0 ∨ n `mod` 3 = 1 ∨ n `mod` 3 = 2.
Proof. pose proof (Z.mod_pos_bound n 3). lia. Qed.

(** X15.  The headers of a request.  Each call advances the counter by
    one.  The User-Agent is the entry of the pool at the counter modulo
    three: it is one of the three agents, differs from that of the next
    call and recurs at every third call.  The correlation id is the two
    fresh UUIDs joined by an underscore.  Every other header has the same
    value at every call; the dict has thirteen distinct keys. *)
Theorem make_headers_rotation (n : Z) (a b : string) :
  (make_headers n a b).2 = n + 1
  ∧ (∃ ua, header_value "User-Agent" (make_headers n a b).1 = Some ua
           ∧ ua ∈ _USER_AGENTS)
  ∧ (∀ a' b', header_value "User-Agent" (make_headers (n + 1) a' b').1
              ≠ header_value "User-Agent" (make_headers n a b).1)
  ∧ (∀ a' b', header_value "User-Agent" (make_headers (n + 3) a' b').1
              = header_value "User-Agent" (make_headers n a b).1)
  ∧ header_value "x-correlation-id" (make_headers n a b).1 = Some (a ++ "_" ++ b)
  ∧ (∀ name n' a' b', name ≠ "User-Agent" → name ≠ "x-correlation-id" →
       header_value name (make_headers n' a' b').1
       = header_value name (make_headers n a b).1)
  ∧ NoDup (make_headers n a b).1.*1
  ∧ length (make_headers n a b).1 = 13%nat.
Proof.
  split; [done|]. split; [|split; [|split; [|split; [done|split; [|split; [|done]]]]]].
  - rewrite user_agent_header. eexists. split; [reflexivity|].
    destruct (mod3_cases n) as [-> | [-> | ->]]; cbn; set_solver.
  - intros a' b'. rewrite !user_agent_header.
    replace ((n + 1) `mod` 3) with ((n `mod` 3 + 1) `mod` 3)
      by (by rewrite Zplus_mod_idemp_l).
    by destruct (mod3_cases n) as [-> | [-> | ->]].
  - intros a' b'. rewrite !user_agent_header.
    by replace (n + 3) with (n + 1 * 3) by lia; rewrite Z_mod_plus_full.
  - intros name n' a' b' Hua Hid. unfold header_value, make_headers.
    cbn [fst snd find]. by repeat case_bool_decide.
  - by apply (bool_decide_unpack _).
Qed.
End HeadersProperties.

Lemma make_headers_rotation_witness :
  "Origin" ≠ "User-Agent" ∧ "Origin" ≠ "x-correlation-id"
  ∧ header_value "Origin" (Headers.make_headers 7 "u1" "u2").1
    = header_value "Origin" (Headers.make_headers 0 "" "").1
  ∧ header_value "x-correlation-id" (Headers.make_headers 0 "u1" "u2").1 = Some "u1_u2".
Proof.
  destruct (make_headers_rotation 0 "" "") as (_ & _ & _ & _ & _ & Hfixed & _).
  split; [done|]. split; [done|]. split; [|reflexivity].
  by apply Hfixed.
Defined.

(** ** Stops of a journey *)

Section JourneyProperties.
Import DepartureService.

Lemma str_or_None_spec (a : option string) :
  str_or_None a ≠ Some ""
  ∧ (str_or_None a = None ↔ a = None ∨ a = Some "")
  ∧ (∀ s, str_or_None a = Some s → a = Some s).
Proof.
  unfold str_or_None. destruct a as [s|].
  - destruct (decide (s = "")) as [->|Hs].
    + split; [done|]. split; [split; [by right | done]|done].
    + split; [by intros [= ->]|].
      split; [split; [done | by intros [|[= ->]]]|done].
  - split; [done|]. split; [split; [by left | done]|done].
Qed.

End JourneyProperties.


(** ** Transport modes and the validation in the tool *)

Lemma mode_of_value_value (m : TransportMode) : mode_of_value (mode_value m) = Some m.
Proof. by destruct m. Qed.

Lemma mode_of_value_Some (s : string) (m : TransportMode) :
  mode_of_value s = Some m → mode_value m = s.
Proof.
  unfold mode_of_value. intros Hfind. apply find_some in Hfind as [_ Hm].
  by apply bool_decide_eq_true in Hm.
Qed.

Lemma mode_of_value_None (s : string) : mode_of_value s = None → ¬ valid_mode s.
Proof. intros Hnone [m <-]. by rewrite mode_of_value_value in Hnone. Qed.

Lemma mapM_Ok_Forall2 {A B} (f : A → result B) (l : list A) (k : list B) :
  mapM f l = Ok k → Forall2 (λ x y, f x = Ok y) l k.
Proof.
  revert k. induction l as [|x l IH]; intros k; cbn.
  - intros [= <-]. constructor.
  - destruct (f x) as [y|e] eqn:Hx; cbn; [|done].
    fold (mapM f l). destruct (mapM f l) as [k'|e]; cbn; [|done].
    intros [= <-]. constructor; [done | by apply IH].
Qed.

Lemma mapM_all_Ok {A B} (f : A → result B) (l : list A) :
  Forall (λ x, ∃ y, f x = Ok y) l → ∃ k, mapM f l = Ok k.
Proof.
  induction 1 as [|x l [y Hy] _ [k Hk]]; [by exists []|].
  exists (y :: k). cbn. rewrite Hy. cbn. fold (mapM f l). by rewrite Hk.
Qed.

Lemma mapM_first_Raise {A B} (f : A → result B) (pre post : list A) (x : A) (e : exn) :
  Forall (λ x, ∃ y, f x = Ok y) pre → f x = Raise e →
  mapM f (pre ++ x :: post) = Raise e.
Proof.
  intros Hpre Hx. induction Hpre as [|z pre [y Hy] _ IH]; cbn.
  - by rewrite Hx.
  - rewrite Hy. cbn. fold (mapM f (pre ++ x :: post)). by rewrite IH.
Qed.

Section ToolValidation.
Context `{PyRuntime}.
Import Tools.

Lemma accepted_mode_Ok (mode : string) :
  accepted_mode mode → ∃ m, mode_of_value (str_upper mode) = Some m.
Proof. intros [m Hm]. exists m. rewrite <- Hm. apply mode_of_value_value. Qed.

(** X17.  [_validate_modes] on a list.  When it returns, the codes of the
    modes it returns are the upper-cased inputs, one for one and in order;
    it returns whenever every input upper-cases to a mode code; and
    otherwise it raises a ValueError that names the first input that does
    not, as it was written. *)
Theorem validate_modes_result (l : list string) :
  (∀ ms, _validate_modes (Some l) = Ok (Some ms) →
     mode_value <$> ms = str_upper <$> l)
  ∧ (Forall accepted_mode l → ∃ ms, _validate_modes (Some l) = Ok (Some ms))
  ∧ (∀ pre bad post,
       l = (pre ++ bad :: post)%list →
       Forall accepted_mode pre → ¬ accepted_mode bad →
       _validate_modes (Some l)
       = Raise (ValueError ("Unknown transport mode: " ++ bad))).
Proof.
  unfold _validate_modes. split; [|split].
  - intros ms Hms.
    destruct (mapM _ l) as [ms'|e] eqn:Hmap; cbn in Hms; [|done].
    injection Hms as ->. apply mapM_Ok_Forall2 in Hmap.
    induction Hmap as [|mode m l ms Hm _ IH]; [done|].
    rewrite !fmap_cons. f_equal; [|done].
    destruct (mode_of_value (str_upper mode)) as [m'|] eqn:Hmode; [|done].
    injection Hm as ->. by apply mode_of_value_Some.
  - intros Hall.
    destruct (mapM_all_Ok
                (λ mode, match mode_of_value (str_upper mode) with
                         | Some m => Ok m
                         | None => Raise (ValueError ("Unknown transport mode: " ++ mode))
                         end) l) as [ms Hms].
    + eapply Forall_impl; [exact Hall|]. intros mode Hmode.
      destruct (accepted_mode_Ok mode Hmode) as [m ->]. eauto.
    + exists ms. by rewrite Hms.
  - intros pre bad post -> Hpre Hbad.
    erewrite mapM_first_Raise; [done| |].
    + eapply Forall_impl; [exact Hpre|]. intros mode Hmode.
      destruct (accepted_mode_Ok mode Hmode) as [m ->]. eauto.
    + destruct (mode_of_value (str_upper bad)) as [m|] eqn:Hmode; [|done].
      destruct Hbad. exists m. by apply mode_of_value_Some.
Qed.

Lemma handle_exception_one_resource (exc : exn) :
  length (_handle_exception exc).1 = 1%nat.
Proof.
  destruct exc as [m|s m|m|m|m|cls m]; cbn; try done.
  by repeat case_bool_decide.
Qed.

(** X18.  The checks of the tool [get_departures] come before any call of
    the service, in a fixed order, and each one ends the call with its own
    message and nothing logged: a blank station name; then a datetime
    string that [strptime] rejects; then the first transport mode that is
    not accepted.  None of these results depends on the client.  And
    whatever the inputs and the client, the tool returns exactly one
    resource. *)
Theorem tool_get_departures_validation (client : Client) (utc_now : Z)
    (station_name : string) (datetime_str : option string)
    (transport_modes : option (list string)) (destination_filter : option string)
    (max_results : Z) :
  let out := get_departures client utc_now station_name datetime_str
               transport_modes destination_filter max_results in
  (strip station_name = "" →
   out = (error_resource "Station name cannot be empty", []))
  ∧ (strip station_name ≠ "" →
     ∀ s, datetime_str = Some s → strptime s DATETIME_FORMAT = None →
     out = (error_resource "Invalid datetime format, expected YYYY-MM-DDTHH:MM:SS", []))
  ∧ (strip station_name ≠ "" →
     ∀ dt pre bad post,
       _parse_datetime_str datetime_str = Ok dt →
       transport_modes = Some (pre ++ bad :: post)%list →
       Forall accepted_mode pre → ¬ accepted_mode bad →
       out = (error_resource ("Unknown transport mode: " ++ bad), []))
  ∧ length out.1 = 1%nat.
Proof.
  intros out. unfold out, get_departures. split; [|split; [|split]].
  - intros Hblank. by rewrite decide_True.
  - intros Hname s -> Hs. rewrite decide_False by done.
    unfold _parse_datetime_str. by rewrite Hs.
  - intros Hname dt pre bad post Hdt -> Hpre Hbad. rewrite decide_False by done.
    rewrite Hdt, bind_Ok.
    destruct (validate_modes_result (pre ++ bad :: post)) as (_ & _ & Hraise).
    by rewrite (Hraise pre bad post).
  - destruct (decide (strip station_name = "")); [done|].
    match goal with
    | |- context [match ?body with Ok _ => _ | Raise _ => _ end] =>
        destruct body as [p|exc]
    end; [done | apply handle_exception_one_resource].
Qed.
End ToolValidation.

Lemma validate_modes_result_witness :
  Forall (accepted_mode (H := Reference.runtime)) ["ice"]
  ∧ ¬ accepted_mode (H := Reference.runtime) "plane"
  ∧ Tools._validate_modes (H := Reference.runtime) (Some ["ice"; "plane"; "BUS"])
    = Raise (ValueError "Unknown transport mode: plane")
  ∧ Tools._validate_modes (H := Reference.runtime) (Some ["ice"; "Regional"])
    = Ok (Some [ICE; REGIONAL]).
Proof.
  assert (Forall (accepted_mode (H := Reference.runtime)) ["ice"]) as Hpre.
  { constructor; [by exists ICE | constructor]. }
  assert (¬ accepted_mode (H := Reference.runtime) "plane") as Hbad.
  { apply mode_of_value_None. reflexivity. }
  split; [exact Hpre|]. split; [exact Hbad|]. split; [|reflexivity].
  destruct (validate_modes_result (H := Reference.runtime) ["ice"; "plane"; "BUS"])
    as (_ & _ & Hraise).
  by apply (Hraise ["ice"] "plane" ["BUS"]).
Defined.

Lemma tool_get_departures_validation_witness :
  let failing := {| search_stations := λ _ _, Raise (TimeoutException "timed out");
                    client_get_departures := λ _ _ _ _ _, Raise (TimeoutException "timed out") |} in
  strip "   " = "" ∧ strip "Frankfurt" ≠ ""
  ∧ strptime (PyRuntime := Reference.runtime) "tomorrow" Tools.DATETIME_FORMAT = None
  ∧ Tools.get_departures (H := Reference.runtime) failing Sample.utc_now "   "
      (Some "tomorrow") (Some ["plane"]) None 20
    = (error_resource "Station name cannot be empty", [])
  ∧ Tools.get_departures (H := Reference.runtime) failing Sample.utc_now "Frankfurt"
      (Some "tomorrow") (Some ["plane"]) None 20
    = (error_resource "Invalid datetime format, expected YYYY-MM-DDTHH:MM:SS", []).
Proof.
  intros failing.
  assert (strip "Frankfurt" ≠ "") as Hname by discriminate.
  split; [reflexivity|]. split; [exact Hname|]. split; [reflexivity|].
  split.
  - by apply (tool_get_departures_validation (H := Reference.runtime) failing
                Sample.utc_now "   " (Some "tomorrow") (Some ["plane"]) None 20).
  - destruct (tool_get_departures_validation (H := Reference.runtime) failing
                Sample.utc_now "Frankfurt" (Some "tomorrow") (Some ["plane"]) None 20)
      as (_ & Hdt & _).
    by apply (Hdt Hname "tomorrow").
Defined.

(** ** Coordinates of a Hafas ID *)

Lemma is_digit_not_space (c : ascii) : is_digit c = true → isspace c = false.
Proof. destruct c as [[] [] [] [] [] [] [] []]; vm_compute; congruence. Qed.

Lemma is_digit_not_sign (c : ascii) :
  is_digit c = true → c ≠ "-"%char ∧ c ≠ "+"%char ∧ c ≠ "@"%char.
Proof. intros Hc. repeat split; intros ->; by vm_compute in Hc. Qed.

Lemma all_chars_impl (P Q : ascii → bool) (s : string) :
  (∀ c, P c = true → Q c = true) → all_chars P s = true → all_chars Q s = true.
Proof.
  intros HPQ. induction s as [|c s IH]; cbn; [done|].
  intros [Hc Hs]%andb_true_iff. by rewrite (HPQ c Hc), IH.
Qed.

Lemma all_chars_rev_app (P : ascii → bool) (s1 s2 : string) :
  all_chars P (String.rev_app s1 s2) = all_chars P s1 && all_chars P s2.
Proof.
  revert s2. induction s1 as [|a s1 IH]; intros s2; cbn; [done|].
  rewrite IH. cbn. by destruct (P a), (all_chars P s1).
Qed.

Lemma rev_app_rev_app (s1 s2 s3 : string) :
  String.rev_app (String.rev_app s1 s2) s3 = String.rev_app s2 (s1 ++ s3).
Proof.
  revert s2. induction s1 as [|a s1 IH]; intros s2; cbn; [done|]. by rewrite IH.
Qed.

Lemma rev_rev (s : string) : String.rev (String.rev s) = s.
Proof.
  unfold String.rev. rewrite rev_app_rev_app. cbn. apply str_app_nil_r.
Qed.

Lemma lstrip_no_space (s : string) :
  all_chars (λ c, negb (isspace c)) s = true → lstrip s = s.
Proof.
  destruct s as [|c s]; cbn; [done|].
  intros [Hc _]%andb_true_iff. apply negb_true_iff in Hc. by rewrite Hc.
Qed.

(** [strip] leaves a string without white space as it is. *)
Lemma strip_no_space (s : string) :
  all_chars (λ c, negb (isspace c)) s = true → strip s = s.
Proof.
  intros Hs. unfold strip. rewrite (lstrip_no_space s) by done.
  rewrite lstrip_no_space; [apply rev_rev|].
  unfold String.rev. rewrite all_chars_rev_app. by rewrite Hs.
Qed.

Lemma digit_run_digits (s : string) : all_chars is_digit (digit_run s) = true.
Proof.
  induction s as [|c s IH]; cbn; [done|].
  destruct (is_digit c) eqn:Hc; cbn; [|done]. by rewrite Hc.
Qed.

Lemma digit_run_app (ds rest : string) :
  all_chars is_digit ds = true → digit_run (ds ++ String "@" rest) = ds.
Proof.
  induction ds as [|c ds IH]; [done|].
  cbn. intros [Hc Hds]%andb_true_iff. rewrite str_app_cons. cbn.
  by rewrite Hc, IH.
Qed.

Lemma int_digits_digits (ds : string) (acc : Z) (after_digit : bool) :
  all_chars is_digit ds = true → ds ≠ "" ∨ after_digit = true →
  ∃ z, int_digits acc after_digit ds = Some z.
Proof.
  revert acc after_digit. induction ds as [|c ds IH]; intros acc after_digit Hall Hne; cbn.
  - destruct Hne as [| ->]; [done | eauto].
  - cbn in Hall. apply andb_true_iff in Hall as [Hc Hds]. unfold is_digit in Hc.
    destruct (digit_of c) as [d|]; [|done]. apply IH; [done | by right].
Qed.

(** [int()] reads every string of the form [-?\d+]. *)
Lemma signed_number_int (g : string) :
  is_signed_number g = true → ∃ z, int_of_str g = Some z.
Proof.
  unfold is_signed_number, int_of_str. destruct g as [|c g]; [done|].
  destruct (decide (c = "-"%char)) as [->|Hminus].
  - intros [Hne Hall]%andb_true_iff.
    apply negb_true_iff, bool_decide_eq_false in Hne.
    rewrite strip_no_space.
    + rewrite decide_True by done.
      destruct (int_digits_digits g 0 false Hall (or_introl Hne)) as [z ->].
      by exists (- z).
    + cbn. eapply all_chars_impl; [|exact Hall].
      intros c Hc. by rewrite is_digit_not_space.
  - intros [_ Hall]%andb_true_iff.
    rewrite strip_no_space.
    + rewrite decide_False by done.
      pose proof Hall as Hall'. cbn in Hall'.
      apply andb_true_iff in Hall' as [Hc _].
      rewrite decide_False by (by apply is_digit_not_sign).
      by apply int_digits_digits; [|left].
    + eapply all_chars_impl; [|exact Hall].
      intros c' Hc'. by rewrite is_digit_not_space.
Qed.

Lemma signed_digits_number (s g : string) :
  signed_digits s = Some g → is_signed_number g = true.
Proof.
  unfold signed_digits. destruct s as [|c s]; [done|].
  destruct (decide (c = "-"%char)) as [->|Hminus].
  - destruct (decide (digit_run s = "")) as [|Hne]; [done|].
    intros [= <-]. rewrite str_app_cons. unfold is_signed_number.
    rewrite decide_True by done.
    change ("" ++ digit_run s) with (digit_run s).
    by rewrite bool_decide_eq_false_2, digit_run_digits.
  - pose proof (digit_run_digits (String c s)) as Hall.
    change (digit_run (String c s))
      with (if is_digit c then String c (digit_run s) else "") in *.
    destruct (is_digit c); [|by rewrite decide_True].
    rewrite decide_False by done. intros [= <-].
    change ("" ++ String c (digit_run s)) with (String c (digit_run s)).
    unfold is_signed_number. rewrite decide_False by done.
    by rewrite bool_decide_eq_false_2, Hall.
Qed.

Lemma signed_digits_app (g rest : string) :
  is_signed_number g = true → signed_digits (g ++ String "@" rest) = Some g.
Proof.
  unfold is_signed_number, signed_digits. destruct g as [|c g]; [done|].
  rewrite str_app_cons.
  destruct (decide (c = "-"%char)) as [->|Hminus].
  - intros [Hne Hall]%andb_true_iff.
    apply negb_true_iff, bool_decide_eq_false in Hne.
    rewrite digit_run_app by done. by rewrite decide_False.
  - intros [_ Hall]%andb_true_iff.
    rewrite <- str_app_cons, digit_run_app by done.
    by rewrite decide_False.
Qed.

Lemma signed_number_no_at (g : string) :
  is_signed_number g = true → chr_in "@" g = false.
Proof.
  assert (∀ ds, all_chars is_digit ds = true → chr_in "@" ds = false) as Hdigits.
  { induction ds as [|c ds IH]; cbn; [done|].
    intros [Hc Hds]%andb_true_iff.
    rewrite decide_False by (by apply is_digit_not_sign). by apply IH. }
  unfold is_signed_number. destruct g as [|c g]; [done|].
  destruct (decide (c = "-"%char)) as [->|Hminus].
  - intros [_ Hall]%andb_true_iff. cbn. by apply Hdigits.
  - intros [_ Hall]%andb_true_iff. by apply Hdigits.
Qed.

Lemma re_search_number_eq (tok s : string) :
  re_search_number tok s
  = match drop_prefix tok s ≫= signed_digits with
    | Some group => Some group
    | None =>
        match s with
        | String _ s' => re_search_number tok s'
        | EmptyString => None
        end
    end.
Proof. by destruct s. Qed.

(** The group found is of the form [-?\d+]. *)
Lemma re_search_number_group (tok s g : string) :
  re_search_number tok s = Some g → is_signed_number g = true.
Proof.
  induction s as [|c s IH]; rewrite re_search_number_eq.
  - destruct (drop_prefix tok "" ≫= signed_digits) as [g'|] eqn:Hhere; [|done].
    intros [= <-]. apply bind_Some in Hhere as (r & _ & Hr).
    by eapply signed_digits_number.
  - destruct (drop_prefix tok (String c s) ≫= signed_digits) as [g'|] eqn:Hhere;
      [|exact IH].
    intros [= <-]. apply bind_Some in Hhere as (r & _ & Hr).
    by eapply signed_digits_number.
Qed.

Lemma drop_prefix_app (tok s : string) : drop_prefix tok (tok ++ s) = Some s.
Proof.
  induction tok as [|a tok IH]; [by destruct s|].
  rewrite str_app_cons. cbn. by rewrite decide_True.
Qed.

(** A stretch without "@" holds no match of a token that starts with it. *)
Lemma re_search_number_skip (tok pre s : string) :
  chr_in "@" pre = false →
  re_search_number (String "@" tok) (pre ++ s) = re_search_number (String "@" tok) s.
Proof.
  induction pre as [|c pre IH]; [done|].
  cbn. destruct (decide (c = "@"%char)) as [|Hc]; [done|]. intros Hpre.
  rewrite str_app_cons, re_search_number_eq. cbn.
  rewrite decide_False by done. cbn. by apply IH.
Qed.

Lemma re_search_number_found (tok g rest : string) :
  is_signed_number g = true →
  re_search_number tok (tok ++ g ++ String "@" rest) = Some g.
Proof.
  intros Hg. rewrite re_search_number_eq, drop_prefix_app. cbn.
  by rewrite signed_digits_app.
Qed.

Section CoordinateProperties.
Context `{PyRuntime}.


End CoordinateProperties.


(** ** From the station search to the message of the tool *)

Section ToolServiceProperties.
Context `{PyRuntime}.
Import Tools.

(** X21.  Failures of the station search as the tool reports them, once
    the inputs have passed the tool's own checks.  A search without result
    is reported as "Station not found", naming the station name without
    its surrounding white space; a search that times out is reported with
    the fixed "timed out" message.  In both cases the departures are never
    asked for, and nothing is logged. *)
Theorem tool_get_departures_search_failures (client : Client) (utc_now : Z)
    (station_name : string) (datetime_str : option string)
    (transport_modes : option (list string)) (destination_filter : option string)
    (max_results : Z) (dt : option datetime) (modes : option (list TransportMode)) :
  strip station_name ≠ "" →
  _parse_datetime_str datetime_str = Ok dt →
  _validate_modes transport_modes = Ok modes →
  let out := get_departures client utc_now station_name datetime_str
               transport_modes destination_filter max_results in
  (search_stations client (strip station_name) 10 = Ok [] →
   out = (error_resource ("Station not found: " ++ strip station_name), []))
  ∧ (∀ m, search_stations client (strip station_name) 10 = Raise (TimeoutException m) →
     out = (error_resource "Request timed out. Please try again.", [])).
Proof.
  intros Hname Hdt Hmodes out. unfold out, get_departures.
  rewrite decide_False by done. rewrite Hdt, bind_Ok, Hmodes, bind_Ok.
  unfold DepartureService.get_departures, DepartureService.resolve_station.
  split.
  - by intros ->.
  - by intros m ->.
Qed.
End ToolServiceProperties.

Lemma tool_get_departures_search_failures_witness :
  let nothing := {| search_stations := λ _ _, Ok [];
                    client_get_departures := λ _ _ _ _ _, Ok {| rb_entries := None |} |} in
  strip " Atlantis " ≠ ""
  ∧ search_stations nothing (strip " Atlantis ") 10 = Ok []
  ∧ Tools.get_departures (H := Reference.runtime) nothing Sample.utc_now " Atlantis "
      (Some "2026-02-24T14:00:00") (Some ["ice"]) None 20
    = (error_resource "Station not found: Atlantis", []).
Proof.
  intros nothing.
  assert (strip " Atlantis " ≠ "") as Hname by discriminate.
  split; [exact Hname|]. split; [reflexivity|].
  destruct (tool_get_departures_search_failures (H := Reference.runtime) nothing
              Sample.utc_now " Atlantis " (Some "2026-02-24T14:00:00") (Some ["ice"])
              None 20
              (Some {| wall := Reference.wall_of 2026 2 24 14 0 0 0; tz := Some BERLIN_TZ |})
              (Some [ICE]) Hname eq_refl eq_refl) as [Hnone _].
  by apply Hnone.
Defined.
